(** * The agent pool of gluio/agent: registration, connection, run and teardown

    A shallow embedding of [agent/agent_pool.go].  The Go code is a
    sequence of calls into collaborators (the API client, the worker, the
    logger, the signal watcher, the retry engine) that may fail, terminate
    the process or panic.  It is embedded in a small monad that threads the
    state of the outside world, records the calls that were made as a trace
    of events, and stops at the first process exit or panic.

    The first part holds the definitions: the monad, the retry engine, the
    data and the collaborators, the methods of [AgentPool], and a scripted
    world to run them on.  The second part holds the theorems. *)

From stdpp Require Import gmap strings list pretty.
From Stdlib Require Import ZArith Lia.

(** * Definitions *)

(** ** Outcomes and the monad *)

(** How a Go call ends: it returns, the process exits ([os.Exit]), or the
    goroutine panics (a nil dereference). *)
Inductive outcome (A : Type) : Type :=
| Ret (a : A)
| Exited (code : Z)
| Panicked.

Arguments Ret {A} a.
Arguments Exited {A} code.
Arguments Panicked {A}.

(** A computation over the world state [Env] that records events of type
    [E]: the outcome, the world it leaves, and the events of this run in
    the order they happened. *)
Definition M (Env E A : Type) : Type := Env -> outcome A * Env * list E.

Section Monad.
Context {Env E : Type}.

Definition ret {A} (a : A) : M Env E A :=
  fun env => (Ret a, env, []).

Definition bind {A B} (m : M Env E A) (f : A -> M Env E B) : M Env E B :=
  fun env =>
    match m env with
    | (Ret a, env1, t1) =>
        match f a env1 with
        | (o, env2, t2) => (o, env2, t1 ++ t2)
        end
    | (Exited code, env1, t1) => (Exited code, env1, t1)
    | (Panicked, env1, t1) => (Panicked, env1, t1)
    end.

(** Record one event. *)
Definition emit (e : E) : M Env E unit :=
  fun env => (Ret tt, env, [e]).

(** A call into the outside world that always returns. *)
Definition call {A} (f : Env -> A * Env) : M Env E A :=
  fun env => match f env with (a, env1) => (Ret a, env1, []) end.

(** A query of the outside world that leaves it as it is. *)
Definition ask {A} (f : Env -> A) : M Env E A :=
  fun env => (Ret (f env), env, []).

(** [os.Exit(code)]. *)
Definition os_Exit {A} (code : Z) : M Env E A :=
  fun env => (Exited code, env, []).

(** A run-time panic. *)
Definition panic {A} : M Env E A :=
  fun env => (Panicked, env, []).

(** Dereference of a pointer that may be nil. *)
Definition deref {A} (p : option A) : M Env E A :=
  match p with
  | Some a => ret a
  | None => panic
  end.

End Monad.

(** The same computation with its events injected into a larger type. *)
Definition relabel {Env E E' A} (f : E -> E') (m : M Env E A) : M Env E' A :=
  fun env => match m env with (o, env1, t) => (o, env1, map f t) end.

Declare Scope go_scope.
Delimit Scope go_scope with go.
Notation "'let*' x ':=' m 'in' k" := (bind m (fun x => k))
  (at level 10, x pattern, m at level 100, k at level 200) : go_scope.
Notation "m ';;;' k" := (bind m (fun _ => k))
  (at level 100, k at level 200, right associativity) : go_scope.
Open Scope go_scope.

(** The three projections of a run. *)
Definition outcome_of {A Env E} (r : outcome A * Env * list E) : outcome A := r.1.1.
Definition env_of {A Env E} (r : outcome A * Env * list E) : Env := r.1.2.
Definition trace_of {A Env E} (r : outcome A * Env * list E) : list E := r.2.

(** A run with a trace put in front of its own. *)
Definition prepend {A Env E} (t : list E) (r : outcome A * Env * list E)
  : outcome A * Env * list E :=
  (outcome_of r, env_of r, t ++ trace_of r).

(** Number of events of a trace that satisfy a boolean test. *)
Definition count {E} (p : E -> bool) (t : list E) : nat :=
  length (List.filter p t).

(** A Go [error] value is represented by its message; [nil] is [None]. *)
Definition error : Type := string.

(** ** The retry engine *)

Module retry.

(** Modelled from the spec: the package [retry] is not among the sources.
    [Config] holds the maximum number of attempts and the fixed delay
    between two attempts (a [time.Duration], in nanoseconds). *)
Record Config : Type := { Maximum : Z; Interval : Z }.

(** Modelled from the spec: the retry state handed to the operation, with
    the attempt counter, the configuration and the abort flag. *)
Record Stats : Type :=
  { Attempt : Z; StatsConfig : Config; breakNext : bool }.

(** Modelled from the spec: [s.Break()] sets the abort flag. *)
Definition Break (s : Stats) : Stats :=
  {| Attempt := Attempt s; StatsConfig := StatsConfig s; breakNext := true |}.

(** The retry state of the next attempt. *)
Definition next (s : Stats) : Stats :=
  {| Attempt := Attempt s + 1; StatsConfig := StatsConfig s;
     breakNext := breakNext s |}.

(** What the engine itself does: it invokes the operation and it sleeps. *)
Inductive event : Type :=
| Invoke
| Sleep (d : Z).

Definition is_Invoke (e : event) : bool :=
  match e with Invoke => true | Sleep _ => false end.
Definition is_Sleep (e : event) : bool :=
  match e with Invoke => false | Sleep _ => true end.

Section Do.
Context {Env E C : Type}.
(** [time.Sleep], as it acts on the world. *)
Variable time_Sleep : Z -> Env -> Env.
(** The operation: a closure over captured variables of type [C], which
    receives the retry state by reference. *)
Variable callback : Stats -> C -> M Env E (option error * Stats * C).
Variable config : Config.

Definition sleep (d : Z) : M Env (event + E) unit :=
  emit (inl (Sleep d)) ;;; call (fun env => (tt, time_Sleep d env)).

(** Modelled from the spec: one attempt and what follows it.  Success
    returns at once; a failure with the abort flag set returns that error
    at once; otherwise, if attempts remain, the engine sleeps for the
    interval and tries again; after the last attempt it returns the last
    error.  The events of the operation are kept apart from those of the
    engine ([inr] and [inl]). *)
Fixpoint loop (remaining : nat) (s : Stats) (c : C)
  : M Env (event + E) (option error * C) :=
  emit (inl Invoke) ;;;
  let* (err, s1, c1) := relabel inr (callback s c) in
  match err with
  | None => ret (None, c1)
  | Some e =>
      if breakNext s1 then ret (Some e, c1)
      else
        match remaining with
        | O => ret (Some e, c1)
        | S k => sleep (Interval config) ;;; loop k (next s1) c1
        end
  end.

(** Modelled from the spec: [retry.Do(callback, config)].  Attempt 1 runs
    immediately, and at most [Maximum] attempts are made. *)
Definition Do (c : C) : M Env (event + E) (option error * C) :=
  loop (Z.to_nat (Maximum config - 1))
       {| Attempt := 1; StatsConfig := config; breakNext := false |} c.

End Do.

(** The events of the engine within a trace of [Do]. *)
Definition engine {E} (t : list (event + E)) : list event :=
  omap (fun x => match x with inl e => Some e | inr _ => None end) t.

(** A test on the events of the operation, false on those of the engine. *)
Definition of_operation {E} (p : E -> bool) (x : event + E) : bool :=
  match x with
  | inl _ => false
  | inr e => p e
  end.

(** [n] invocations with a sleep of [d] between two consecutive ones. *)
Fixpoint schedule (n : nat) (d : Z) : list event :=
  match n with
  | O => []
  | S O => [Invoke]
  | S k => Invoke :: Sleep d :: schedule k d
  end.

(** *** The attempts of a run of the engine *)

Section Attempts.
Context {Env E C : Type}.
Variable time_Sleep : Z -> Env -> Env.
Variable callback : Stats -> C -> M Env E (option error * Stats * C).
Variable config : Config.

(** The point at which an attempt starts: the retry state, the captured
    variables and the world. *)
Definition point : Type := Stats * C * Env.

Definition attempt (x : point) : outcome (option error * Stats * C) * Env * list E :=
  match x with (s, c, env) => callback s c env end.

(** The point at which the next attempt starts, after an attempt that
    returned and the sleep that follows it. *)
Definition after_sleep (x : point) : point :=
  match attempt x with
  | (Ret (_, s1, c1), env1, _) =>
      (next s1, c1, time_Sleep (Interval config) env1)
  | (_, env1, _) => (x.1.1, x.1.2, env1)
  end.

(** The point at which attempt number [i + 1] starts, when the [i]
    attempts before it were each followed by a sleep. *)
Fixpoint start_of (i : nat) (x : point) : point :=
  match i with
  | O => x
  | S j => start_of j (after_sleep x)
  end.

(** The error the attempt at [x] returns, if it returns one. *)
Definition error_at (x : point) : option error :=
  match attempt x with
  | (Ret (err, _, _), _, _) => err
  | _ => None
  end.

(** The attempt at [x] fails and leaves the abort flag unset. *)
Definition fails_on (x : point) : bool :=
  match attempt x with
  | (Ret (Some _, s1, _), _, _) => negb (breakNext s1)
  | _ => false
  end.

(** The attempt at [x] succeeds. *)
Definition succeeds_on (x : point) : bool :=
  match attempt x with
  | (Ret (None, _, _), _, _) => true
  | _ => false
  end.

(** Where the run starts. *)
Definition first_point (c : C) (env : Env) : point :=
  ({| Attempt := 1; StatsConfig := config; breakNext := false |}, c, env).

Definition run_from (remaining : nat) (x : point)
  : outcome (option error * C) * Env * list (event + E) :=
  match x with (s, c, env) => loop time_Sleep callback config remaining s c env end.

End Attempts.

End retry.

(** ** Data of the agent package *)

Module api.

(** [api.Agent]: the record sent for registration and the record the
    service returns.  The fields are those [agent_pool.go] reads or writes,
    and the access token its comments name. *)
Record Agent : Type :=
  { Name : string;
    Priority : string;
    MetaData : list string;
    ScriptEvalEnabled : bool;
    Version : string;
    PID : Z;
    Hostname : string;
    OS : string;
    AccessToken : string }.

Definition with_MetaData (a : Agent) (m : list string) : Agent :=
  {| Name := Name a; Priority := Priority a; MetaData := m;
     ScriptEvalEnabled := ScriptEvalEnabled a; Version := Version a;
     PID := PID a; Hostname := Hostname a; OS := OS a;
     AccessToken := AccessToken a |}.

Definition with_Hostname (a : Agent) (h : string) : Agent :=
  {| Name := Name a; Priority := Priority a; MetaData := MetaData a;
     ScriptEvalEnabled := ScriptEvalEnabled a; Version := Version a;
     PID := PID a; Hostname := h; OS := OS a;
     AccessToken := AccessToken a |}.

Definition with_OS (a : Agent) (o : string) : Agent :=
  {| Name := Name a; Priority := Priority a; MetaData := MetaData a;
     ScriptEvalEnabled := ScriptEvalEnabled a; Version := Version a;
     PID := PID a; Hostname := Hostname a; OS := o;
     AccessToken := AccessToken a |}.

(** [api.Response]: the status code of the HTTP response. *)
Record Response : Type := { StatusCode : Z }.

End api.

Module AgentConfiguration.

(** The fields of [AgentConfiguration] that [agent_pool.go] reads. *)
Record t : Type :=
  { BootstrapScript : string;
    BuildPath : string;
    HooksPath : string;
    AutoSSHFingerprintVerification : bool;
    CommandEval : bool;
    RunInPty : bool;
    ExitWithStatus : bool }.

End AgentConfiguration.

Module AgentWorker.

(** The worker, as [Start] builds it and reads it.  [Agent] is a pointer in
    Go; it is built from a pointer that was dereferenced just before. *)
Record t : Type :=
  { Agent : api.Agent;
    AgentConfiguration : AgentConfiguration.t;
    Endpoint : string;
    ExitStatus : Z }.

End AgentWorker.

(** ** Events *)

Inductive level : Type := DEBUG | INFO | NOTICE | WARN | ERROR | FATAL.

(** What a run does that the outside can see.  A log call is recorded with
    its format string and its arguments, each as [%s] prints it.  The calls
    on the worker and on the registration service are recorded as they are
    made; [Connected] and [StartReturned] record what the call returned. *)
Inductive event : Type :=
| Printed (format : string) (args : list string)
| Log (l : level) (format : string) (args : list string)
| Retry (e : retry.event)
| Registering (agent : api.Agent)
| Connected (err : option error)
| Watch
| StartCalled
| StartReturned (err : option error)
| Stop
| Disconnect.

Definition of_retry (e : retry.event + event) : event :=
  match e with
  | inl r => Retry r
  | inr e => e
  end.

Definition is_Log (l : level) (e : event) : bool :=
  match e with
  | Log l' _ _ =>
      match l, l' with
      | DEBUG, DEBUG | INFO, INFO | NOTICE, NOTICE
      | WARN, WARN | ERROR, ERROR | FATAL, FATAL => true
      | _, _ => false
      end
  | _ => false
  end.

Definition is_Register (e : event) : bool :=
  match e with Registering _ => true | _ => false end.

Definition is_Sleep (e : event) : bool :=
  match e with Retry (retry.Sleep _) => true | _ => false end.

Definition is_Connected (e : event) : bool :=
  match e with Connected _ => true | _ => false end.

Definition is_Watch (e : event) : bool :=
  match e with Watch => true | _ => false end.

Definition is_StartCalled (e : event) : bool :=
  match e with StartCalled => true | _ => false end.

Definition is_StartReturned (e : event) : bool :=
  match e with StartReturned _ => true | _ => false end.

Definition is_Stop (e : event) : bool :=
  match e with Stop => true | _ => false end.

Definition is_Disconnect (e : event) : bool :=
  match e with Disconnect => true | _ => false end.

Definition is_Printed (e : event) : bool :=
  match e with Printed _ _ => true | _ => false end.

(** What a run writes before it registers: the banner, and log lines that
    are neither warnings nor fatal. *)
Definition before_registering (e : event) : bool :=
  match e with
  | Printed _ _ => true
  | Log (DEBUG | INFO | NOTICE | ERROR) _ _ => true
  | _ => false
  end.

(** The events that involve the worker or the signal watcher. *)
Definition on_worker (e : event) : bool :=
  match e with
  | Connected _ | Watch | StartCalled | StartReturned _ | Stop | Disconnect => true
  | _ => false
  end.

(** The events before the worker exists: no call on the worker or the
    watcher, and no fatal log line. *)
Definition quiet (e : event) : bool :=
  negb (on_worker e) && negb (is_Log FATAL e).

(** The events of the signal callback: debug log lines and [Stop]. *)
Definition of_callback (e : event) : bool :=
  is_Log DEBUG e || is_Stop e.

(** The calls on the worker and the watcher that a trace records. *)
Definition calls (t : list event) : list event := List.filter on_worker t.

(** ** The collaborators *)

(** The process and its host: the logger's settings, the operating system,
    the clock, the cloud metadata service.  None of these is among the
    sources; each is taken as a parameter. *)
Class Host (Env : Type) : Type :=
  { logger_ColorsEnabled : Env -> bool;
    (** Modelled from the spec: a fatal log terminates the process; the exit
        status it uses is a parameter. *)
    fatal_status : Z;
    Version : string;
    os_Getpid : Env -> Z;
    os_Hostname : Env -> string * option error;
    OSDump : Env -> (string * option error) * Env;
    EC2Tags_Get : Env -> (gmap string string * option error) * Env;
    (** The order in which a [range] loop visits the entries of a map: Go
        leaves it unspecified, but each entry is visited once. *)
    range_order : gmap string string -> Env -> list (string * string);
    range_order_perm :
      forall m env, Permutation (range_order m env) (map_to_list m);
    time_Sleep : Z -> Env -> Env;
    Stats_String : retry.Stats -> string }.

(** The remote registration service, behind the API client. *)
Class RegistrationService (Env : Type) : Type :=
  { Client : Type;
    APIClient_Create : string -> string -> Client;
    Agents_Register :
      Client -> api.Agent ->
      Env -> (option api.Agent * option api.Response * option error) * Env }.

(** The worker lifecycle contract.  The worker is one object in the world,
    shared by the main flow and the signal callback; [worker] reads it. *)
Class WorkerLifecycle (Env : Type) : Type :=
  { AgentWorker_Create : AgentWorker.t -> Env -> Env;
    worker : Env -> AgentWorker.t;
    AgentWorker_Connect : Env -> option error * Env;
    AgentWorker_Start : Env -> option error * Env;
    AgentWorker_Stop : Env -> Env;
    AgentWorker_Disconnect : Env -> Env }.

(** The signal watcher.  Modelled from the spec: [Watch] arms a watcher that
    runs beside the caller for the lifetime of the process and invokes the
    callback once per received signal.  [received] takes out of the world
    the signals that arrived since it was last asked, in the order they
    arrived. *)
Class SignalWatcher (Env : Type) : Type :=
  { Signal : Type;
    Signal_eq_dec :: EqDecision Signal;
    QUIT : Signal;
    Signal_String : Signal -> string;
    received : Env -> list Signal * Env }.

(** ** Strings *)

Definition char (n : nat) : string := String (Ascii.ascii_of_nat n) EmptyString.

Definition nl : string := char 10.

Definition esc : string := char 27.

Definition dquote : string := char 34.

(** [%s] applied to a slice of strings. *)
Definition Sprint_strings (l : list string) : string :=
  "[" +:+ String.concat " " l +:+ "]".

(** [fmt.Sprintf("%s=%s", tag, value)]. *)
Definition Sprintf_tag (tag value : string) : string :=
  tag +:+ "=" +:+ value.

(** The character [=]. *)
Definition equals_sign : Ascii.ascii := Ascii.ascii_of_nat 61.

(** The string holds the character [=]. *)
Fixpoint has_equals (s : string) : bool :=
  match s with
  | EmptyString => false
  | String c rest => Ascii.eqb c equals_sign || has_equals rest
  end.

(** [time.Second], in nanoseconds. *)
Definition time_Second : Z := 1000000000.

(** ** The agent pool *)

Module AgentPool.

Section Methods.
Context {Env : Type} `{Host Env} `{RegistrationService Env}
        `{WorkerLifecycle Env} `{SignalWatcher Env}.

(** The struct [AgentPool].  [APIClient] is a pointer, nil until [Start]
    sets it.  [AgentConfiguration] is a pointer too: the pools of this
    development are those with a configuration set.  (With a nil
    configuration [ShowBanner] panics at line 177 and [CreateAgentTemplate]
    at line 95, so that [Start] panics in its first statement.) *)
Record t : Type :=
  { APIClient : option Client;
    Token : string;
    ConfigFilePath : string;
    Name : string;
    Priority : string;
    MetaData : list string;
    MetaDataEC2Tags : bool;
    Endpoint : string;
    AgentConfiguration : AgentConfiguration.t }.

Definition with_APIClient (r : t) (c : option Client) : t :=
  {| APIClient := c; Token := Token r; ConfigFilePath := ConfigFilePath r;
     Name := Name r; Priority := Priority r; MetaData := MetaData r;
     MetaDataEC2Tags := MetaDataEC2Tags r; Endpoint := Endpoint r;
     AgentConfiguration := AgentConfiguration r |}.

(** *** The logger *)

Definition logger_Debug (format : string) (args : list string) : M Env event unit :=
  emit (Log DEBUG format args).

Definition logger_Info (format : string) (args : list string) : M Env event unit :=
  emit (Log INFO format args).

Definition logger_Notice (format : string) (args : list string) : M Env event unit :=
  emit (Log NOTICE format args).

Definition logger_Warn (format : string) (args : list string) : M Env event unit :=
  emit (Log WARN format args).

Definition logger_Error (format : string) (args : list string) : M Env event unit :=
  emit (Log ERROR format args).

(** Modelled from the spec: [logger.Fatal] is not among the sources.  A
    fatal condition logs one line and terminates the process. *)
Definition logger_Fatal {A} (format : string) (args : list string) : M Env event A :=
  emit (Log FATAL format args) ;;; os_Exit fatal_status.

(** *** [ShowBanner] *)

Definition welcomeMessage : string :=
  nl +:+
  "%s  _           _ _     _ _    _ _                                _" +:+ nl +:+
  " | |         (_) |   | | |  (_) |                              | |" +:+ nl +:+
  " | |__  _   _ _| | __| | | ___| |_ ___    __ _  __ _  ___ _ __ | |_" +:+ nl +:+
  " | '_ \| | | | | |/ _` | |/ / | __/ _ \  / _` |/ _` |/ _ \ '_ \| __|" +:+ nl +:+
  " | |_) | |_| | | | (_| |   <| | ||  __/ | (_| | (_| |  __/ | | | |_" +:+ nl +:+
  " |_.__/ \__,_|_|_|\__,_|_|\_\_|\__\___|  \__,_|\__, |\___|_| |_|\__|" +:+ nl +:+
  "                                                __/ |" +:+ nl +:+
  " http://buildkite.com/agent                    |___/" +:+ nl +:+ "%s" +:+ nl.

(** [ShowBanner] (lines 151-192): the banner goes to the logger's output
    pipe, with or without the colour codes, and the configuration is
    logged. *)
Definition ShowBanner (r : t) : M Env event unit :=
  let* colors := ask logger_ColorsEnabled in
  (if colors : bool
   then emit (Printed welcomeMessage [esc +:+ "[32m"; esc +:+ "[0m"])
   else emit (Printed welcomeMessage [""; ""])) ;;;
  let* pid := ask os_Getpid in
  logger_Notice "Starting buildkite-agent v%s with PID: %s" [Version; pretty pid] ;;;
  logger_Notice "The agent source code can be found here: https://github.com/buildkite/agent" [] ;;;
  logger_Notice "For questions and support, email us at: hello@buildkite.com" [] ;;;
  (if String.eqb (ConfigFilePath r) ""
   then ret tt
   else logger_Info "Configuration loaded from: %s" [ConfigFilePath r]) ;;;
  let cfg := AgentConfiguration r in
  logger_Debug "Bootstrap script: %s" [AgentConfiguration.BootstrapScript cfg] ;;;
  logger_Debug "Build path: %s" [AgentConfiguration.BuildPath cfg] ;;;
  logger_Debug "Hooks directory: %s" [AgentConfiguration.HooksPath cfg] ;;;
  (if AgentConfiguration.AutoSSHFingerprintVerification cfg
   then ret tt
   else logger_Debug "Automatic SSH fingerprint verification has been disabled" []) ;;;
  (if AgentConfiguration.CommandEval cfg
   then ret tt
   else logger_Debug "Evaluating console commands has been disabled" []) ;;;
  (if AgentConfiguration.RunInPty cfg
   then ret tt
   else logger_Debug "Running builds within a pseudoterminal (PTY) has been disabled" []).

(** *** [CreateAgentTemplate] *)

(** The body of the [range] loop over the tags: one [append]. *)
Definition add_tag (agent : api.Agent) (entry : string * string) : api.Agent :=
  api.with_MetaData agent
    (api.MetaData agent ++ [Sprintf_tag entry.1 entry.2]).

(** [CreateAgentTemplate] (lines 90-120).  A failing tag lookup is logged
    and nothing else; the errors of [os.Hostname] and [OSDump] are dropped,
    as in the source. *)
Definition CreateAgentTemplate (r : t) : M Env event api.Agent :=
  let* pid := ask os_Getpid in
  let agent :=
    {| api.Name := Name r;
       api.Priority := Priority r;
       api.MetaData := MetaData r;
       api.ScriptEvalEnabled := AgentConfiguration.CommandEval (AgentConfiguration r);
       api.Version := Version;
       api.PID := pid;
       api.Hostname := "";
       api.OS := "";
       api.AccessToken := "" |} in
  let* agent :=
    if MetaDataEC2Tags r then
      let* (tags, err) := call EC2Tags_Get in
      match err with
      | Some e =>
          logger_Error ("Failed to find EC2 Tags: " +:+ e) [] ;;;
          ret agent
      | None =>
          let* entries := ask (range_order tags) in
          ret (fold_left add_tag entries agent)
      end
    else ret agent in
  let* (hostname, _) := ask os_Hostname in
  let agent := api.with_Hostname agent hostname in
  let* (os, _) := call OSDump in
  let agent := api.with_OS agent os in
  ret agent.

(** *** [RegisterAgent] *)

(** The variables the closure [register] captures. *)
Record captured : Type :=
  { registered : option api.Agent;
    resp : option api.Response;
    err : option error }.

(** The closure [register].  It dereferences [r.APIClient], calls the
    service, and on an error reads [resp.StatusCode]. *)
Definition register (r : t) (agent : api.Agent) (s : retry.Stats) (c : captured)
  : M Env event (option error * retry.Stats * captured) :=
  let* client := deref (APIClient r) in
  emit (Registering agent) ;;;
  let* (registered, resp, err) := call (Agents_Register client agent) in
  let c := {| registered := registered; resp := resp; err := err |} in
  match err with
  | Some e =>
      let* response := deref resp in
      if (api.StatusCode response =? 401)%Z then
        logger_Warn "Buildkite rejected the registration (%s)" [e] ;;;
        ret (err, retry.Break s, c)
      else
        logger_Warn "%s (%s)" [e; Stats_String s] ;;;
        ret (err, s, c)
  | None => ret (err, s, c)
  end.

(** The configuration of line 144: thirty attempts, one second apart. *)
Definition register_config : retry.Config :=
  {| retry.Maximum := 30; retry.Interval := 1 * time_Second |}.

(** [RegisterAgent] (lines 125-147): it returns [registered] as the last
    attempt left it, and the error of [retry.Do]. *)
Definition RegisterAgent (r : t) (agent : api.Agent)
  : M Env event (option api.Agent * option error) :=
  let c0 := {| registered := None; resp := None; err := None |} in
  let* (err, c) :=
    relabel of_retry (retry.Do time_Sleep (register r agent) register_config c0) in
  ret (registered c, err).

(** *** [Start] *)

(** The callback handed to [signalwatcher.Watch]. *)
Definition onSignal (sig : Signal) : M Env event unit :=
  if decide (sig = QUIT) then
    logger_Debug "Received signal `%s`" [Signal_String sig] ;;;
    emit Stop ;;;
    call (fun env => (tt, AgentWorker_Stop env))
  else
    logger_Debug "Ignoring signal `%s`" [Signal_String sig].

(** The watcher invokes the callback once per received signal. *)
Fixpoint deliver (sigs : list Signal) : M Env event unit :=
  match sigs with
  | [] => ret tt
  | sig :: rest => onSignal sig ;;; deliver rest
  end.

(** The watcher runs beside the main flow.  Its callbacks are placed between
    the steps of the main flow: at each such point, one callback per signal
    that arrived since the point before. *)
Definition callbacks : M Env event unit :=
  let* sigs := call received in
  deliver sigs.

(** The blocking call [worker.Start()], with the callbacks that the watcher
    runs while it is blocked placed between the call and its return. *)
Definition worker_Start : M Env event (option error) :=
  emit StartCalled ;;;
  callbacks ;;;
  let* err := call AgentWorker_Start in
  emit (StartReturned err) ;;;
  ret err.

(** [worker.Connect()], with the event that records it.  The watcher is not
    armed yet. *)
Definition worker_Connect : M Env event (option error) :=
  let* err := call AgentWorker_Connect in
  emit (Connected err) ;;;
  ret err.

(** [worker.Disconnect()], with the event that records the call and the
    callbacks that the watcher runs while the call is under way. *)
Definition worker_Disconnect : M Env event unit :=
  emit Disconnect ;;;
  callbacks ;;;
  call (fun env => (tt, AgentWorker_Disconnect env)).

(** [Start] (lines 25-86).  The assignment to [r.APIClient] is the
    rebinding of [r]; [registered.Name] dereferences the pointer that
    [RegisterAgent] returned; each [logger.Fatal] ends the run.
    [signalwatcher.Watch] is the event [Watch]: from there on the callback
    may run at any point, so [callbacks] stands before every later step of
    the main flow, until the process exits or [Start] returns. *)
Definition Start (r : t) : M Env event (option error) :=
  ShowBanner r ;;;
  let r := with_APIClient r (Some (APIClient_Create (Endpoint r) (Token r))) in
  let* template := CreateAgentTemplate r in
  logger_Info "Registering agent with Buildkite..." [] ;;;
  let* (registered, err) := RegisterAgent r template in
  (match err with
   | Some e => logger_Fatal "%s" [e]
   | None => ret tt
   end) ;;;
  let* registered := deref registered in
  logger_Info ("Successfully registered agent " +:+ dquote +:+ "%s" +:+ dquote +:+ " with meta-data %s")
              [api.Name registered; Sprint_strings (api.MetaData registered)] ;;;
  call (fun env =>
          (tt, AgentWorker_Create
                 {| AgentWorker.Agent := registered;
                    AgentWorker.AgentConfiguration := AgentConfiguration r;
                    AgentWorker.Endpoint := Endpoint r;
                    AgentWorker.ExitStatus := 0 |} env)) ;;;
  logger_Info "Connecting to Buildkite..." [] ;;;
  let* err := worker_Connect in
  (match err with
   | Some e => logger_Fatal "%s" [e]
   | None => ret tt
   end) ;;;
  logger_Info "Agent successfully connected" [] ;;;
  logger_Info "You can press Ctrl-C to stop the agent" [] ;;;
  logger_Info "Waiting for work..." [] ;;;
  emit Watch ;;;
  callbacks ;;;
  let* err := worker_Start in
  callbacks ;;;
  (match err with
   | Some e => logger_Fatal "%s" [e]
   | None => ret tt
   end) ;;;
  let* w := ask worker in
  logger_Info "Disconnecting %s..." [api.Name (AgentWorker.Agent w)] ;;;
  callbacks ;;;
  worker_Disconnect ;;;
  callbacks ;;;
  let* w := ask worker in
  if AgentConfiguration.ExitWithStatus (AgentConfiguration r)
  then os_Exit (AgentWorker.ExitStatus w)
  else ret None.

(** *** The events and the shapes of the runs *)

Definition rejected_warning (e : error) : event :=
  Log WARN "Buildkite rejected the registration (%s)" [e].

Definition transient_warning (e : error) (s : retry.Stats) : event :=
  Log WARN "%s (%s)" [e; Stats_String s].

Definition received_log (sig : Signal) : event :=
  Log DEBUG "Received signal `%s`" [Signal_String sig].

Definition ignoring_log (sig : Signal) : event :=
  Log DEBUG "Ignoring signal `%s`" [Signal_String sig].

(** The number of graceful-termination signals among those received. *)
Definition quits (sigs : list Signal) : nat :=
  length (List.filter (fun sig => bool_decide (sig = QUIT)) sigs).

Definition fatal_log (e : error) : event := Log FATAL "%s" [e].

Definition registering_log : event :=
  Log INFO "Registering agent with Buildkite..." [].

Definition registered_log (a : api.Agent) : event :=
  Log INFO
    ("Successfully registered agent " +:+ dquote +:+ "%s" +:+ dquote +:+
     " with meta-data %s")
    [api.Name a; Sprint_strings (api.MetaData a)].

Definition connecting_log : event := Log INFO "Connecting to Buildkite..." [].

Definition connected_logs : list event :=
  [Log INFO "Agent successfully connected" [];
   Log INFO "You can press Ctrl-C to stop the agent" [];
   Log INFO "Waiting for work..." []].

Definition disconnecting_log (name : string) : event :=
  Log INFO "Disconnecting %s..." [name].

(** The world after the callbacks of one point of the main flow: the
    signals received are taken out, and [Stop] has been applied to the
    worker once per [QUIT] among them. *)
Definition after_callbacks (env : Env) : Env :=
  Nat.iter (quits (received env).1) AgentWorker_Stop (received env).2.

(** From [Connect] to [Start]'s return: the events of a run in which
    [Connect] succeeded, [s0] and [s1] being those of the signal callback
    before the worker's [Start] is called and while it is blocked. *)
Definition running (s0 s1 : list event) (err : option error) : list event :=
  Connected None :: connected_logs ++
  Watch :: s0 ++ StartCalled :: s1 ++ [StartReturned err].

(** The strings [tag=value] of the entries of a map of tags. *)
Definition tag_strings (entries : list (string * string)) : list string :=
  map (fun entry => Sprintf_tag entry.1 entry.2) entries.

(** The events of a run of [RegisterAgent] for the descriptor [agent]: an
    invocation by the retry engine, a sleep of one second, a call of the
    service with that descriptor, a warning. *)
Definition of_registration (agent : api.Agent) (e : event) : Prop :=
  e = Retry retry.Invoke \/
  e = Retry (retry.Sleep (1 * time_Second)) \/
  e = Registering agent \/
  exists format args, e = Log WARN format args.

(** The closure asks the retry engine to stop: the call returned an error
    and a response with status code 401. *)
Definition rejects (err : option error) (resp : option api.Response) : bool :=
  match err, resp with
  | Some _, Some response => (api.StatusCode response =? 401)%Z
  | _, _ => false
  end.

(** The pool as [Start] uses it once it has created the API client. *)
Definition with_client (r : t) : t :=
  with_APIClient r (Some (APIClient_Create (Endpoint r) (Token r))).

(** The registration step as [Start] reaches it: [RegisterAgent] on the
    template, in the world that [CreateAgentTemplate] leaves. *)
Definition registration (r : t) (env : Env)
  : outcome (option api.Agent * option error) * Env * list event :=
  match CreateAgentTemplate (with_client r) env with
  | (Ret template, env1, _) => RegisterAgent (with_client r) template env1
  | (Exited code, env1, _) => (Exited code, env1, [])
  | (Panicked, env1, _) => (Panicked, env1, [])
  end.

(** The worker as [Start] builds it from the registered agent. *)
Definition new_worker (r : t) (registered : api.Agent) : AgentWorker.t :=
  {| AgentWorker.Agent := registered;
     AgentWorker.AgentConfiguration := AgentConfiguration r;
     AgentWorker.Endpoint := Endpoint r;
     AgentWorker.ExitStatus := 0 |}.

(** The number of features among the three that the banner reports as
    disabled. *)
Definition disabled_features (cfg : AgentConfiguration.t) : nat :=
  (if AgentConfiguration.AutoSSHFingerprintVerification cfg then 0 else 1) +
  (if AgentConfiguration.CommandEval cfg then 0 else 1) +
  (if AgentConfiguration.RunInPty cfg then 0 else 1).

(** From the call of [Connect] on, a run of [Start] ends in one of three
    ways. *)
Inductive worker_run (r : t)
  : outcome (option error) * Env * list event -> Prop :=
| connect_failed env1 e :
    worker_run r (Exited fatal_status, env1,
                  [Connected (Some e); fatal_log e])
| start_failed env1 s0 s1 s2 e :
    Forall (fun e => of_callback e = true) s0 ->
    Forall (fun e => of_callback e = true) s1 ->
    Forall (fun e => of_callback e = true) s2 ->
    worker_run r (Exited fatal_status, env1,
                  running s0 s1 (Some e) ++ s2 ++ [fatal_log e])
| finished env1 s0 s1 s2 s3 s4 name :
    Forall (fun e => of_callback e = true) s0 ->
    Forall (fun e => of_callback e = true) s1 ->
    Forall (fun e => of_callback e = true) s2 ->
    Forall (fun e => of_callback e = true) s3 ->
    Forall (fun e => of_callback e = true) s4 ->
    worker_run r
      (if AgentConfiguration.ExitWithStatus (AgentConfiguration r)
       then Exited
              (AgentWorker.ExitStatus
                 (worker (after_callbacks
                            (AgentWorker_Disconnect (after_callbacks env1)))))
       else Ret None,
       after_callbacks (AgentWorker_Disconnect (after_callbacks env1)),
       running s0 s1 None ++ s2 ++
       disconnecting_log name :: s3 ++ Disconnect :: s4).

(** A run of [Start] panics or fails before the worker exists, or goes on
    to the worker after a quiet beginning. *)
Inductive Start_run (r : t)
  : outcome (option error) * Env * list event -> Prop :=
| run_panicked env1 t0 :
    Forall (fun e => quiet e = true) t0 ->
    Start_run r (Panicked, env1, t0)
| run_unregistered env1 t0 e :
    Forall (fun e => quiet e = true) t0 ->
    Start_run r (Exited fatal_status, env1, t0 ++ [fatal_log e])
| run_worker t0 x :
    Forall (fun e => quiet e = true) t0 ->
    worker_run r x ->
    Start_run r (prepend t0 x).

(** How a run of [Start] ended, as seen from the calls on the worker: the
    numbers count the [Stop] calls of the signal callback before the
    worker's [Start] is called, while it is blocked, after it has returned
    and after [Disconnect] has been called. *)
Inductive ending : Type :=
| BeforeWorker
| ConnectFailed (e : error)
| StartFailed (n0 n1 n2 : nat) (e : error)
| Finished (n0 n1 n2 n3 : nat).

Definition calls_of (x : ending) : list event :=
  match x with
  | BeforeWorker => []
  | ConnectFailed e => [Connected (Some e)]
  | StartFailed n0 n1 n2 e =>
      Connected None :: Watch :: repeat Stop n0 ++
      StartCalled :: repeat Stop n1 ++
      StartReturned (Some e) :: repeat Stop n2
  | Finished n0 n1 n2 n3 =>
      Connected None :: Watch :: repeat Stop n0 ++
      StartCalled :: repeat Stop n1 ++
      StartReturned None :: repeat Stop n2 ++
      Disconnect :: repeat Stop n3
  end.

Definition ends (r : t) (x : ending)
  (run : outcome (option error) * Env * list event) : Prop :=
  calls (trace_of run) = calls_of x /\
  match x with
  | BeforeWorker =>
      (outcome_of run = Panicked /\
       count (is_Log FATAL) (trace_of run) = 0%nat) \/
      outcome_of run = Exited fatal_status
  | ConnectFailed _ | StartFailed _ _ _ _ =>
      outcome_of run = Exited fatal_status
  | Finished _ _ _ _ =>
      outcome_of run =
        (if AgentConfiguration.ExitWithStatus (AgentConfiguration r)
         then Exited (AgentWorker.ExitStatus (worker (env_of run)))
         else Ret None) /\
      count (is_Log FATAL) (trace_of run) = 0%nat /\
      (exists t0 s,
         trace_of run = t0 ++ Disconnect :: s /\
         In (StartReturned None) t0 /\
         Forall (fun e => of_callback e = true) s) /\
      exists env1,
        env_of run =
          after_callbacks (AgentWorker_Disconnect (after_callbacks env1))
  end.

End Methods.

End AgentPool.

(** ** A scripted world

    A world whose collaborators answer from a script, on which the
    definitions above run and the theorems are exercised. *)

Definition reply : Type := option api.Agent * option api.Response * option error.

Record world : Type :=
  { replies : list reply;
    connect_reply : option error;
    start_reply : option error * Z;
    tags_reply : gmap string string * option error;
    signals : list (list Z);
    the_worker : AgentWorker.t;
    stops : nat;
    disconnects : nat;
    slept : Z }.

Definition next_reply (w : world) : reply * world :=
  match replies w with
  | [] => ((None, None, Some "no reply"), w)
  | x :: rest =>
      (x, {| replies := rest; connect_reply := connect_reply w;
             start_reply := start_reply w; tags_reply := tags_reply w;
             signals := signals w; the_worker := the_worker w;
             stops := stops w; disconnects := disconnects w;
             slept := slept w |})
  end.

(** The signals that arrived since the last point: the next batch of the
    script. *)
Definition next_signals (w : world) : list Z * world :=
  match signals w with
  | [] => ([], w)
  | batch :: rest =>
      (batch, {| replies := replies w; connect_reply := connect_reply w;
                 start_reply := start_reply w; tags_reply := tags_reply w;
                 signals := rest; the_worker := the_worker w;
                 stops := stops w; disconnects := disconnects w;
                 slept := slept w |})
  end.

Definition set_worker (a : AgentWorker.t) (w : world) : world :=
  {| replies := replies w; connect_reply := connect_reply w;
     start_reply := start_reply w; tags_reply := tags_reply w;
     signals := signals w; the_worker := a;
     stops := stops w; disconnects := disconnects w; slept := slept w |}.

Definition set_status (status : Z) (w : world) : world :=
  set_worker
    {| AgentWorker.Agent := AgentWorker.Agent (the_worker w);
       AgentWorker.AgentConfiguration := AgentWorker.AgentConfiguration (the_worker w);
       AgentWorker.Endpoint := AgentWorker.Endpoint (the_worker w);
       AgentWorker.ExitStatus := status |} w.

Definition add_stop (w : world) : world :=
  {| replies := replies w; connect_reply := connect_reply w;
     start_reply := start_reply w; tags_reply := tags_reply w;
     signals := signals w; the_worker := the_worker w;
     stops := S (stops w); disconnects := disconnects w; slept := slept w |}.

Definition add_disconnect (w : world) : world :=
  {| replies := replies w; connect_reply := connect_reply w;
     start_reply := start_reply w; tags_reply := tags_reply w;
     signals := signals w; the_worker := the_worker w;
     stops := stops w; disconnects := S (disconnects w); slept := slept w |}.

Definition add_sleep (d : Z) (w : world) : world :=
  {| replies := replies w; connect_reply := connect_reply w;
     start_reply := start_reply w; tags_reply := tags_reply w;
     signals := signals w; the_worker := the_worker w;
     stops := stops w; disconnects := disconnects w; slept := slept w + d |}.

Definition world_Host : Host world :=
  {| logger_ColorsEnabled := fun _ => false;
     fatal_status := 1;
     Version := "2.0";
     os_Getpid := fun _ => 4242%Z;
     os_Hostname := fun _ => ("builder-1", None);
     OSDump := fun w => (("linux", None), w);
     EC2Tags_Get := fun w => (tags_reply w, w);
     range_order := fun m _ => map_to_list m;
     range_order_perm := fun m _ => Permutation_refl (map_to_list m);
     time_Sleep := add_sleep;
     Stats_String := fun s => "Attempt " +:+ pretty (retry.Attempt s) |}.

Definition world_RegistrationService : RegistrationService world :=
  {| Client := string * string;
     APIClient_Create := fun endpoint token => (endpoint, token);
     Agents_Register := fun _ _ => next_reply |}.

Definition world_WorkerLifecycle : WorkerLifecycle world :=
  {| AgentWorker_Create := set_worker;
     worker := the_worker;
     AgentWorker_Connect := fun w => (connect_reply w, w);
     AgentWorker_Start :=
       fun w => ((start_reply w).1, set_status (start_reply w).2 w);
     AgentWorker_Stop := add_stop;
     AgentWorker_Disconnect := add_disconnect |}.

Definition world_SignalWatcher : SignalWatcher world :=
  {| Signal := Z;
     QUIT := 3%Z;
     Signal_String := fun sig => pretty sig;
     received := next_signals |}.

Definition configuration (exit_with_status : bool) : AgentConfiguration.t :=
  {| AgentConfiguration.BootstrapScript := "bootstrap.sh";
     AgentConfiguration.BuildPath := "builds";
     AgentConfiguration.HooksPath := "hooks";
     AgentConfiguration.AutoSSHFingerprintVerification := true;
     AgentConfiguration.CommandEval := true;
     AgentConfiguration.RunInPty := true;
     AgentConfiguration.ExitWithStatus := exit_with_status |}.

Definition pool (ec2 exit_with_status : bool)
  : @AgentPool.t world world_RegistrationService :=
  {| AgentPool.APIClient := None;
     AgentPool.Token := "token";
     AgentPool.ConfigFilePath := "";
     AgentPool.Name := "agent-1";
     AgentPool.Priority := "1";
     AgentPool.MetaData := ["queue=default"];
     AgentPool.MetaDataEC2Tags := ec2;
     AgentPool.Endpoint := "https://agent.buildkite.com/v2";
     AgentPool.AgentConfiguration := configuration exit_with_status |}.

Definition registered_agent : api.Agent :=
  {| api.Name := "agent-1"; api.Priority := "1";
     api.MetaData := ["queue=default"]; api.ScriptEvalEnabled := true;
     api.Version := "2.0"; api.PID := 4242; api.Hostname := "builder-1";
     api.OS := "linux"; api.AccessToken := "secret" |}.

Definition accepted : reply :=
  (Some registered_agent, Some {| api.StatusCode := 200 |}, None).

Definition unavailable : reply :=
  (None, Some {| api.StatusCode := 503 |}, Some "service unavailable").

Definition unauthorized : reply :=
  (None, Some {| api.StatusCode := 401 |}, Some "unauthorized").

Definition unreachable : reply :=
  (None, None, Some "connection refused").

(** A world from a script; the signals [sigs] arrive while the worker's
    [Start] is blocked, and none at any other point. *)
Definition scripted (rs : list reply) (connect : option error)
    (start : option error * Z) (tags : gmap string string * option error)
    (sigs : list Z) : world :=
  {| replies := rs; connect_reply := connect; start_reply := start;
     tags_reply := tags; signals := [[]; sigs];
     the_worker :=
       {| AgentWorker.Agent := registered_agent;
          AgentWorker.AgentConfiguration := configuration false;
          AgentWorker.Endpoint := ""; AgentWorker.ExitStatus := 0 |};
     stops := 0; disconnects := 0; slept := 0 |}.

(** The same world with another script of signals: one batch per point of
    the main flow at which callbacks may run. *)
Definition with_signals (batches : list (list Z)) (w : world) : world :=
  {| replies := replies w; connect_reply := connect_reply w;
     start_reply := start_reply w; tags_reply := tags_reply w;
     signals := batches; the_worker := the_worker w;
     stops := stops w; disconnects := disconnects w; slept := slept w |}.

(** A run that registers at once, connects, receives a hang-up and a quit
    signal while running, and finishes with exit status 7. *)
Definition good_world : world :=
  scripted [accepted] None (None, 7%Z) (∅, None) [1%Z; 3%Z].

(** A run that receives a quit signal before the worker's [Start] is called,
    a hang-up while it is blocked, and quit signals while [Disconnect] is
    under way and after it. *)
Definition late_signals_world : world :=
  with_signals [[3%Z]; [1%Z]; []; []; [3%Z]; [3%Z]]
    (scripted [accepted] None (None, 7%Z) (∅, None) []).

(** A run whose worker fails while running. *)
Definition failing_run_world : world :=
  scripted [accepted] None (Some "run failed", 1%Z) (∅, None) [].

(** A run whose worker cannot connect. *)
Definition failing_connect_world : world :=
  scripted [accepted] (Some "connect failed") (None, 0%Z) (∅, None) [3%Z].

(** A service that rejects the token. *)
Definition rejecting_world : world :=
  scripted (repeat unauthorized 30) None (None, 0%Z) (∅, None) [].

(** A service that cannot be reached. *)
Definition unreachable_world : world :=
  scripted [unreachable] None (None, 0%Z) (∅, None) [].

(** A service that is unavailable for thirty calls and more. *)
Definition unavailable_world : world :=
  scripted (repeat unavailable 40) None (None, 0%Z) (∅, None) [].

(** A service that answers on the third call. *)
Definition recovering_world : world :=
  scripted [unavailable; unavailable; accepted] None (None, 0%Z) (∅, None) [].

(** A host on which the tag lookup fails. *)
Definition no_tags_world : world :=
  scripted [accepted] None (None, 0%Z) (∅, Some "no metadata service") [].

(** A service that answers with neither an agent nor an error. *)
Definition empty_reply_world : world :=
  scripted [(None, Some {| api.StatusCode := 200 |}, None)]
    None (None, 0%Z) (∅, None) [].

(** The descriptor that [pool] gives on the scripted host. *)
Definition template_agent : api.Agent :=
  {| api.Name := "agent-1"; api.Priority := "1";
     api.MetaData := ["queue=default"]; api.ScriptEvalEnabled := true;
     api.Version := "2.0"; api.PID := 4242; api.Hostname := "builder-1";
     api.OS := "linux"; api.AccessToken := "" |}.

Definition client : string * string :=
  ("https://agent.buildkite.com/v2", "token").

(** The pool once [Start] has created its API client. *)
Definition ready_pool (ec2 : bool)
  : @AgentPool.t world world_RegistrationService :=
  AgentPool.with_APIClient (pool ec2 false) (Some client).

Definition nothing_captured : AgentPool.captured :=
  {| AgentPool.registered := None; AgentPool.resp := None;
     AgentPool.err := None |}.

(** * Theorems *)

(** ** The monad *)

Section MonadFacts.
Context {Env E : Type}.

Lemma bind_Ret {A B} (m : M Env E A) (f : A -> M Env E B) env a env1 t1 :
  m env = (Ret a, env1, t1) -> bind m f env = prepend t1 (f a env1).
Proof.
  intros Hm. unfold bind, prepend, outcome_of, env_of, trace_of.
  rewrite Hm. destruct (f a env1) as [[o env2] t2]. reflexivity.
Qed.

Lemma bind_Panicked {A B} (m : M Env E A) (f : A -> M Env E B) env env1 t1 :
  m env = (Panicked, env1, t1) -> bind m f env = (Panicked, env1, t1).
Proof. intros Hm. unfold bind. rewrite Hm. reflexivity. Qed.

Lemma bind_emit {B} (e : E) (k : M Env E B) env :
  (emit e ;;; k) env = prepend [e] (k env).
Proof. apply (bind_Ret (emit e) (fun _ => k) env tt env [e]). reflexivity. Qed.

Lemma bind_call {A B} (f : Env -> A * Env) (k : A -> M Env E B) env :
  bind (call f) k env = k (f env).1 (f env).2.
Proof.
  unfold bind, call. destruct (f env) as [a env1]. cbn.
  destruct (k a env1) as [[o env2] t2]. reflexivity.
Qed.

Lemma bind_ret {A B} (a : A) (k : A -> M Env E B) env :
  bind (ret a) k env = k a env.
Proof.
  unfold bind, ret. destruct (k a env) as [[o env2] t2]. reflexivity.
Qed.

Lemma bind_ask {A B} (f : Env -> A) (k : A -> M Env E B) env :
  bind (ask f) k env = k (f env) env.
Proof.
  unfold bind, ask. destruct (k (f env) env) as [[o env2] t2]. reflexivity.
Qed.

Lemma trace_bind {A B} (m : M Env E A) (f : A -> M Env E B) env :
  exists rest, trace_of (bind m f env) = trace_of (m env) ++ rest.
Proof.
  unfold bind, trace_of. destruct (m env) as [[o env1] t1]. cbn [snd].
  destruct o as [a|code|].
  - destruct (f a env1) as [[o2 env2] t2]. exists t2. reflexivity.
  - exists []. rewrite app_nil_r. reflexivity.
  - exists []. rewrite app_nil_r. reflexivity.
Qed.

Lemma prepend_nil {A} (r : outcome A * Env * list E) : prepend [] r = r.
Proof. destruct r as [[o env] t]. reflexivity. Qed.

Lemma prepend_prepend {A} (t1 t2 : list E) (r : outcome A * Env * list E) :
  prepend t1 (prepend t2 r) = prepend (t1 ++ t2) r.
Proof.
  unfold prepend, outcome_of, env_of, trace_of. cbn.
  rewrite app_assoc. reflexivity.
Qed.

End MonadFacts.

(** ** The retry engine *)

Section RetryFacts.
Import retry.
Context {Env E C : Type}.
Variable time_Sleep : Z -> Env -> Env.
Variable callback : Stats -> C -> M Env E (option error * Stats * C).
Variable config : Config.

Local Abbreviation attempt := (retry.attempt callback).
Local Abbreviation after_sleep := (retry.after_sleep time_Sleep callback config).
Local Abbreviation start_of := (retry.start_of time_Sleep callback config).
Local Abbreviation error_at := (retry.error_at callback).
Local Abbreviation fails_on := (retry.fails_on callback).
Local Abbreviation succeeds_on := (retry.succeeds_on callback).
Local Abbreviation first_point := (retry.first_point config).
Local Abbreviation run_from := (retry.run_from time_Sleep callback config).

Lemma engine_app (t1 t2 : list (event + E)) :
  engine (t1 ++ t2) = engine t1 ++ engine t2.
Proof. unfold engine. apply omap_app. Qed.

Lemma engine_inr (t : list E) : engine (map inr t) = [].
Proof. induction t as [|e t IH]; [reflexivity | exact IH]. Qed.

Lemma engine_attempt (t : list E) (t2 : list (event + E)) :
  engine (inl Invoke :: map inr t ++ t2) = Invoke :: engine t2.
Proof.
  change (inl Invoke :: map inr t ++ t2)
    with ([inl Invoke] ++ (map inr t ++ t2)).
  rewrite !engine_app, engine_inr. reflexivity.
Qed.

Lemma run_from_success remaining x :
  succeeds_on x = true ->
  exists s1 c1 env1 t,
    attempt x = (Ret (None, s1, c1), env1, t) /\
    run_from remaining x = (Ret (None, c1), env1, inl Invoke :: map inr t).
Proof.
  destruct x as [[s c] env].
  unfold retry.succeeds_on, retry.run_from, retry.attempt.
  destruct (callback s c env) as [[o env1] t] eqn:Hcb.
  destruct o as [[[[e|] s1] c1]| |]; try discriminate. intros _.
  exists s1, c1, env1, t. split; [reflexivity|].
  destruct remaining; simpl; unfold bind, emit, relabel, ret;
    rewrite Hcb; simpl; rewrite app_nil_r; reflexivity.
Qed.

Lemma run_from_last x :
  fails_on x = true ->
  exists e s1 c1 env1 t,
    attempt x = (Ret (Some e, s1, c1), env1, t) /\
    run_from 0 x = (Ret (Some e, c1), env1, inl Invoke :: map inr t).
Proof.
  destruct x as [[s c] env].
  unfold retry.fails_on, retry.run_from, retry.attempt.
  destruct (callback s c env) as [[o env1] t] eqn:Hcb.
  destruct o as [[[[e|] s1] c1]| |]; try discriminate. intros Hb.
  apply negb_true_iff in Hb.
  exists e, s1, c1, env1, t. split; [reflexivity|].
  simpl; unfold bind, emit, relabel, ret.
  rewrite Hcb; simpl; rewrite Hb; simpl; rewrite app_nil_r; reflexivity.
Qed.

Lemma run_from_retry k x :
  fails_on x = true ->
  run_from (S k) x =
    match run_from k (after_sleep x) with
    | (o, env2, t2) =>
        (o, env2,
         inl Invoke :: map inr (trace_of (attempt x)) ++
         inl (Sleep (Interval config)) :: t2)
    end.
Proof.
  destruct x as [[s c] env].
  unfold retry.fails_on, retry.after_sleep, retry.attempt.
  destruct (callback s c env) as [[o env1] t] eqn:Hcb.
  destruct o as [[[[e|] s1] c1]| |]; try discriminate. intros Hb.
  apply negb_true_iff in Hb.
  unfold retry.run_from, trace_of. simpl.
  unfold bind, emit, relabel, sleep, call. rewrite Hcb. simpl. rewrite Hb.
  destruct (loop time_Sleep callback config k (next s1) c1
              (time_Sleep (Interval config) env1)) as [[o2 env2] t2].
  reflexivity.
Qed.

Lemma schedule_step n d :
  schedule (S (S n)) d = Invoke :: Sleep d :: schedule (S n) d.
Proof. reflexivity. Qed.

Lemma count_Invoke_schedule n d : count is_Invoke (schedule n d) = n.
Proof.
  induction n as [|[|n] IH]; try reflexivity.
  rewrite schedule_step. unfold count in *. simpl in *. lia.
Qed.

Lemma count_Sleep_schedule n d : count is_Sleep (schedule n d) = (n - 1)%nat.
Proof.
  induction n as [|[|n] IH]; try reflexivity.
  rewrite schedule_step. unfold count in *. simpl in *. lia.
Qed.

Lemma sleeps_of_schedule n d e :
  In e (schedule n d) -> is_Sleep e = true -> e = Sleep d.
Proof.
  induction n as [|[|n] IH]; simpl.
  - intros [].
  - intros [<-|[]]; discriminate.
  - intros [<-|[<-|Hin]]; [discriminate|reflexivity|]. apply IH, Hin.
Qed.

(** When every attempt fails without the abort flag, the engine makes the
    one attempt it starts with and [k] more, sleeps between them, and
    returns the error of the last one. *)
Lemma run_from_all_fail k : forall x,
  (forall i, (i <= k)%nat -> fails_on (start_of i x) = true) ->
  exists c1,
    outcome_of (run_from k x) = Ret (error_at (start_of k x), c1) /\
    engine (trace_of (run_from k x)) = schedule (S k) (Interval config).
Proof.
  induction k as [|k IH]; intros x Hfail.
  - destruct (run_from_last x (Hfail 0%nat (Nat.le_refl _)))
      as (e & s1 & c1 & env1 & t & Hat & Hrun).
    exists c1. rewrite Hrun. unfold retry.error_at. simpl. rewrite Hat.
    split; [reflexivity|].
    unfold trace_of. cbn [snd].
    rewrite <- (app_nil_r (map inr t)). apply engine_attempt.
  - rewrite (run_from_retry k x (Hfail 0%nat (Nat.le_0_l _))).
    destruct (IH (after_sleep x)) as (c1 & Hout & Htr).
    { intros i Hi. apply (Hfail (S i)). lia. }
    destruct (run_from k (after_sleep x)) as [[o2 env2] t2].
    exists c1. split; [exact Hout|].
    unfold trace_of in *. cbn [snd] in *.
    rewrite engine_attempt, schedule_step, <- Htr. reflexivity.
Qed.

(** When attempt number [j + 1] is the first to succeed, the engine stops
    there and reports no error. *)
Lemma run_from_first_success j : forall k x,
  (j <= k)%nat ->
  (forall i, (i < j)%nat -> fails_on (start_of i x) = true) ->
  succeeds_on (start_of j x) = true ->
  exists c1,
    outcome_of (run_from k x) = Ret (None, c1) /\
    engine (trace_of (run_from k x)) = schedule (S j) (Interval config).
Proof.
  induction j as [|j IH]; intros k x Hle Hfail Hok.
  - destruct (run_from_success k x Hok) as (s1 & c1 & env1 & t & _ & Hrun).
    exists c1. rewrite Hrun. split; [reflexivity|].
    unfold trace_of. cbn [snd].
    rewrite <- (app_nil_r (map inr t)). apply engine_attempt.
  - destruct k as [|k]; [lia|].
    rewrite (run_from_retry k x (Hfail 0%nat (Nat.lt_0_succ _))).
    destruct (IH k (after_sleep x)) as (c1 & Hout & Htr).
    { lia. }
    { intros i Hi. apply (Hfail (S i)). lia. }
    { exact Hok. }
    destruct (run_from k (after_sleep x)) as [[o2 env2] t2].
    exists c1. split; [exact Hout|].
    unfold trace_of in *. cbn [snd] in *.
    rewrite engine_attempt, schedule_step, <- Htr. reflexivity.
Qed.

(** An attempt that fails with the abort flag set ends the run at once,
    whatever the number of attempts that remain. *)
Lemma loop_abort k s c env e s1 c1 env1 t :
  callback s c env = (Ret (Some e, s1, c1), env1, t) ->
  breakNext s1 = true ->
  loop time_Sleep callback config k s c env =
    (Ret (Some e, c1), env1, inl Invoke :: map inr t).
Proof.
  intros Hcb Hb.
  destruct k; simpl; unfold bind, emit, relabel, ret;
    rewrite Hcb; simpl; rewrite Hb; simpl; rewrite app_nil_r; reflexivity.
Qed.

(** A success ends the run at once. *)
Lemma loop_success k s c env s1 c1 env1 t :
  callback s c env = (Ret (None, s1, c1), env1, t) ->
  loop time_Sleep callback config k s c env =
    (Ret (None, c1), env1, inl Invoke :: map inr t).
Proof.
  intros Hcb.
  destruct k; simpl; unfold bind, emit, relabel, ret;
    rewrite Hcb; simpl; rewrite app_nil_r; reflexivity.
Qed.

(** A panic of the operation is a panic of the run. *)
Lemma loop_panic k s c env env1 t :
  callback s c env = (Panicked, env1, t) ->
  loop time_Sleep callback config k s c env =
    (Panicked, env1, inl Invoke :: map inr t).
Proof.
  intros Hcb.
  destruct k; simpl; unfold bind, emit, relabel, ret;
    rewrite Hcb; reflexivity.
Qed.

(** Every run starts with an invocation of the operation. *)
Lemma loop_begins k s c env :
  exists rest,
    trace_of (loop time_Sleep callback config k s c env) =
      inl Invoke :: map inr (trace_of (callback s c env)) ++ rest.
Proof.
  destruct k; simpl; unfold bind, emit, relabel, ret, sleep, call, trace_of;
    destruct (callback s c env) as [[o env1] t]; cbn [snd];
    destruct o as [[[[e|] s1] c1]|code|]; cbn;
    try destruct (breakNext s1); cbn;
    try (exists []; rewrite app_nil_r; reflexivity).
  destruct (loop time_Sleep callback config k (next s1) c1
              (time_Sleep (Interval config) env1)) as [[o2 env2] t2].
  eexists. reflexivity.
Qed.

(** The engine adds only its own two events to those of the operation. *)
Lemma loop_trace_Forall (P : event + E -> Prop) :
  P (inl Invoke) -> P (inl (Sleep (Interval config))) ->
  (forall s c env, Forall (fun e => P (inr e)) (trace_of (callback s c env))) ->
  forall k s c env,
    Forall P (trace_of (loop time_Sleep callback config k s c env)).
Proof.
  intros HI HS Hcb k.
  induction k as [|k IH]; intros s c env; specialize (Hcb s c env);
    simpl; unfold bind, emit, relabel, sleep, call, ret, trace_of in *;
    destruct (callback s c env) as [[o env1] t]; cbn [snd] in *;
    assert (Ht : Forall P (map inr t))
      by (apply Forall_map; exact Hcb);
    destruct o as [[[[e|] s1] c1]| |]; cbn;
    try (constructor; [exact HI|]; rewrite ?app_nil_r; exact Ht).
  - destruct (breakNext s1); cbn;
      constructor; try exact HI; rewrite ?app_nil_r; exact Ht.
  - destruct (breakNext s1); cbn.
    + constructor; [exact HI|]. rewrite app_nil_r. exact Ht.
    + specialize (IH (next s1) c1 (time_Sleep (Interval config) env1)).
      destruct (loop time_Sleep callback config k (next s1) c1
                  (time_Sleep (Interval config) env1)) as [[o2 env2] t2].
      cbn [snd] in *. constructor; [exact HI|].
      apply Forall_app. split; [exact Ht|].
      constructor; [exact HS | exact IH].
Qed.

(** The engine never terminates the process by itself. *)
Lemma loop_not_Exited :
  (forall s c env code, outcome_of (callback s c env) <> Exited code) ->
  forall k s c env code,
    outcome_of (loop time_Sleep callback config k s c env) <> Exited code.
Proof.
  intros Hcb k.
  induction k as [|k IH]; intros s c env code; specialize (Hcb s c env);
    simpl; unfold bind, emit, relabel, sleep, call, ret, outcome_of in *;
    destruct (callback s c env) as [[o env1] t]; cbn [fst] in *;
    destruct o as [[[[e|] s1] c1]|code1|]; cbn; try discriminate;
    try (exfalso; exact (Hcb code1 eq_refl)).
  - destruct (breakNext s1); cbn; discriminate.
  - destruct (breakNext s1); cbn; [discriminate|].
    specialize (IH (next s1) c1 (time_Sleep (Interval config) env1) code).
    destruct (loop time_Sleep callback config k (next s1) c1
                (time_Sleep (Interval config) env1)) as [[o2 env2] t2].
    exact IH.
Qed.

Lemma count_of_operation_inr (p : E -> bool) (t : list E) :
  count (of_operation p) (map inr t) = count p t.
Proof.
  unfold count. induction t as [|e t IH]; [reflexivity|].
  cbn. destruct (p e); cbn; rewrite IH; reflexivity.
Qed.

Lemma count_cons {A} (p : A -> bool) (a : A) (t : list A) :
  count p (a :: t) = ((if p a then 1 else 0) + count p t)%nat.
Proof. unfold count. cbn. destruct (p a); reflexivity. Qed.

Lemma count_append {A} (p : A -> bool) (t1 t2 : list A) :
  count p (t1 ++ t2) = (count p t1 + count p t2)%nat.
Proof. unfold count. rewrite List.filter_app. apply length_app. Qed.

(** Every run makes between one and [remaining + 1] attempts, with a sleep
    of the interval between two consecutive ones; an event that each attempt
    produces [m] times is produced [m] times per attempt. *)
Lemma loop_attempts (p : E -> bool) (m : nat) :
  (forall s c env, count p (trace_of (callback s c env)) = m) ->
  forall k s c env,
    exists n,
      (1 <= n <= S k)%nat /\
      engine (trace_of (loop time_Sleep callback config k s c env)) =
        schedule n (Interval config) /\
      count (of_operation p)
        (trace_of (loop time_Sleep callback config k s c env)) = (n * m)%nat.
Proof.
  intros Hm k.
  assert (Hlast : forall (t : list E),
            count p t = m ->
            exists n, (1 <= n <= 1)%nat /\
              engine (inl Invoke :: map inr t) = schedule n (Interval config) /\
              count (of_operation p) (inl Invoke :: map inr t) = (n * m)%nat).
  { intros t Ht. exists 1%nat. split; [lia|].
    rewrite <- (app_nil_r (map inr t)), engine_attempt, count_cons,
      count_append, count_of_operation_inr, Ht.
    split; [reflexivity | cbn; lia]. }
  induction k as [|k IH]; intros s c env; specialize (Hm s c env);
    simpl; unfold bind, emit, relabel, sleep, call, ret, trace_of in *;
    destruct (callback s c env) as [[o env1] t]; cbn [snd] in *;
    destruct (Hlast t Hm) as (n1 & Hn1 & Heng1 & Hcnt1);
    destruct o as [[[[e|] s1] c1]| |]; cbn;
    try destruct (breakNext s1); cbn; rewrite ?app_nil_r;
    try (exists n1; split; [lia|]; split; assumption).
  destruct (IH (next s1) c1 (time_Sleep (Interval config) env1))
    as (n & Hn & Heng & Hcnt).
  destruct (loop time_Sleep callback config k (next s1) c1
              (time_Sleep (Interval config) env1)) as [[o2 env2] t2].
  cbn [snd] in *. exists (S n). split; [lia|].
  rewrite engine_attempt, count_cons, count_append, count_of_operation_inr.
  rewrite count_cons, Hcnt, Hm. cbn [engine omap of_operation]. split.
  - destruct n as [|n]; [lia|]. rewrite schedule_step. f_equal.
    change (engine (inl (Sleep (Interval config)) :: t2))
      with (Sleep (Interval config) :: engine t2).
    f_equal. exact Heng.
  - lia.
Qed.

(** C6. For a configuration with [Maximum = N] (at least one attempt) and
    [Interval = d]: an operation that fails on every attempt and never sets
    the abort flag is invoked exactly [N] times, with exactly [N - 1] sleeps,
    each of [d] and each between two consecutive invocations, and [Do]
    returns the error of attempt [N]; an operation whose first success is
    on attempt [k <= N] is invoked exactly [k] times and [Do] returns nil. *)
Theorem Do_attempts (N : nat) (c : C) (env : Env) :
  Maximum config = Z.of_nat N -> (1 <= N)%nat ->
  let d := Interval config in
  let x := first_point c env in
  let r := Do time_Sleep callback config c env in
  ((forall i, (i < N)%nat -> fails_on (start_of i x) = true) ->
   (exists e c1,
      error_at (start_of (N - 1) x) = Some e /\
      outcome_of r = Ret (Some e, c1)) /\
   engine (trace_of r) = schedule N d /\
   count is_Invoke (engine (trace_of r)) = N /\
   count is_Sleep (engine (trace_of r)) = (N - 1)%nat /\
   (forall ev, In ev (engine (trace_of r)) -> is_Sleep ev = true ->
               ev = Sleep d))
  /\
  (forall k, (1 <= k <= N)%nat ->
   (forall i, (i < k - 1)%nat -> fails_on (start_of i x) = true) ->
   succeeds_on (start_of (k - 1) x) = true ->
   (exists c1, outcome_of r = Ret (None, c1)) /\
   engine (trace_of r) = schedule k d /\
   count is_Invoke (engine (trace_of r)) = k).
Proof.
  intros HN Hpos d x r.
  assert (Hrem : Z.to_nat (Maximum config - 1) = (N - 1)%nat) by lia.
  assert (Hr : r = run_from (N - 1) x).
  { unfold r, Do, x, retry.first_point, retry.run_from.
    rewrite Hrem. reflexivity. }
  split.
  - intros Hfail.
    destruct (run_from_all_fail (N - 1) x) as (c1 & Hout & Htr).
    { intros i Hi. apply Hfail. lia. }
    replace (S (N - 1)) with N in Htr by lia.
    rewrite Hr, Htr. repeat split.
    + assert (Hlast : fails_on (start_of (N - 1) x) = true)
        by (apply Hfail; lia).
      unfold retry.fails_on in Hlast. unfold retry.error_at in *.
      destruct (attempt (start_of (N - 1) x)) as [[o env1] t].
      destruct o as [[[[e|] s1] c2]| |]; try discriminate.
      exists e, c1. split; [reflexivity | exact Hout].
    + apply count_Invoke_schedule.
    + apply count_Sleep_schedule.
    + apply sleeps_of_schedule.
  - intros k Hk Hfail Hok.
    destruct (run_from_first_success (k - 1) (N - 1) x) as (c1 & Hout & Htr);
      [lia | exact Hfail | exact Hok |].
    replace (S (k - 1)) with k in Htr by lia.
    rewrite Hr, Htr. repeat split.
    + exists c1. exact Hout.
    + apply count_Invoke_schedule.
Qed.

End RetryFacts.

(** ** The tag strings *)

Lemma append_cons (ch : Ascii.ascii) (a b : string) :
  String ch a +:+ b = String ch (a +:+ b).
Proof. reflexivity. Qed.

Lemma append_empty (b : string) : "" +:+ b = b.
Proof. reflexivity. Qed.

Lemma append_assoc (a b c : string) : (a +:+ b) +:+ c = a +:+ (b +:+ c).
Proof.
  induction a as [|ch a IH]; [reflexivity|].
  rewrite !append_cons, IH. reflexivity.
Qed.

Lemma length_append (a b : string) :
  String.length (a +:+ b) = (String.length a + String.length b)%nat.
Proof.
  induction a as [|ch a IH]; [reflexivity|].
  rewrite append_cons. cbn [String.length]. rewrite IH. reflexivity.
Qed.

(** X1.  A tag that holds no [=] can be read back from its [tag=value]
    string: two such tags with the same string are the same tag with the
    same value. *)
Theorem Sprintf_tag_injective (tag tag' value value' : string) :
  has_equals tag = false -> has_equals tag' = false ->
  Sprintf_tag tag value = Sprintf_tag tag' value' ->
  tag = tag' /\ value = value'.
Proof.
  unfold Sprintf_tag. revert tag'.
  induction tag as [|c tag IH]; intros [|c' tag']; cbn [has_equals];
    rewrite ?append_cons, ?append_empty; intros Ht Ht' Heq.
  - injection Heq as ->. split; reflexivity.
  - injection Heq as <- _. unfold equals_sign in Ht'.
    rewrite Ascii.eqb_refl in Ht'. discriminate.
  - injection Heq as -> _. unfold equals_sign in Ht.
    rewrite Ascii.eqb_refl in Ht. discriminate.
  - injection Heq as <- Heq.
    apply orb_false_iff in Ht as [_ Ht]. apply orb_false_iff in Ht' as [_ Ht'].
    destruct (IH tag' Ht Ht' Heq) as [-> ->]. split; reflexivity.
Qed.

(** X2.  A tag that holds [=] cannot: the tag [t=x] with the value [v] and
    the tag [t] with the value [x=v] are different entries with the same
    string. *)
Theorem Sprintf_tag_collision (tag x value : string) :
  Sprintf_tag (tag +:+ "=" +:+ x) value =
    Sprintf_tag tag (x +:+ "=" +:+ value) /\
  tag +:+ "=" +:+ x <> tag /\
  has_equals (tag +:+ "=" +:+ x) = true.
Proof.
  unfold Sprintf_tag. split; [|split].
  - rewrite !append_assoc. reflexivity.
  - intros Heq. apply (f_equal String.length) in Heq.
    rewrite length_append, append_cons in Heq.
    cbn [String.length] in Heq. lia.
  - induction tag as [|c tag IH]; [reflexivity|].
    rewrite append_cons. cbn [has_equals]. rewrite IH. apply orb_true_r.
Qed.

(** ** The agent pool *)

Section AgentPoolFacts.
Import AgentPool.
Context {Env : Type} `{Host Env} `{RegistrationService Env}
        `{WorkerLifecycle Env} `{SignalWatcher Env}.

(** *** Counting events *)

Lemma count_app (p : event -> bool) (t1 t2 : list event) :
  count p (t1 ++ t2) = (count p t1 + count p t2)%nat.
Proof. unfold count. rewrite List.filter_app. apply length_app. Qed.

Lemma count_none (p q : event -> bool) (t : list event) :
  (forall e, q e = true -> p e = false) ->
  Forall (fun e => q e = true) t -> count p t = 0%nat.
Proof.
  intros Hpq Ht. unfold count.
  induction Ht as [|e t He _ IH]; [reflexivity|].
  simpl. rewrite (Hpq e He). exact IH.
Qed.

(** *** The steps before the worker exists *)

Lemma ShowBanner_run (r : t) (env : Env) :
  exists tr,
    ShowBanner r env = (Ret tt, env, tr) /\
    Forall (fun e => quiet e = true) tr.
Proof.
  unfold ShowBanner, logger_Notice, logger_Info, logger_Debug,
    bind, ask, emit, ret.
  destruct (logger_ColorsEnabled env);
    destruct (String.eqb (ConfigFilePath r) "");
    destruct (AgentConfiguration.AutoSSHFingerprintVerification (AgentConfiguration r));
    destruct (AgentConfiguration.CommandEval (AgentConfiguration r));
    destruct (AgentConfiguration.RunInPty (AgentConfiguration r));
    (eexists; split; [reflexivity | repeat constructor]).
Qed.

Lemma CreateAgentTemplate_run (r : t) (env : Env) :
  exists agent env1 tr,
    CreateAgentTemplate r env = (Ret agent, env1, tr) /\
    Forall (fun e => quiet e = true) tr.
Proof.
  unfold CreateAgentTemplate, logger_Error, bind, ask, call, emit, ret.
  destruct (MetaDataEC2Tags r).
  - destruct (EC2Tags_Get env) as [[tags [e|]] env1];
      destruct (os_Hostname env1) as [hostname herr];
      destruct (OSDump env1) as [[os oerr] env2];
      (do 3 eexists; split; [reflexivity | repeat constructor]).
  - destruct (os_Hostname env) as [hostname herr];
      destruct (OSDump env) as [[os oerr] env2];
      (do 3 eexists; split; [reflexivity | repeat constructor]).
Qed.

(** *** The closure [register] *)

Lemma register_ok (r : t) agent s c env client reg response env1 :
  APIClient r = Some client ->
  Agents_Register client agent env = ((reg, response, None), env1) ->
  register r agent s c env =
    (Ret (None, s, {| registered := reg; resp := response; err := None |}),
     env1, [Registering agent]).
Proof.
  intros Hc Hreg. unfold register, bind, deref, emit, call, ret.
  rewrite Hc. cbn. rewrite Hreg. reflexivity.
Qed.

Lemma register_rejected (r : t) agent s c env client reg response e env1 :
  APIClient r = Some client ->
  Agents_Register client agent env = ((reg, Some response, Some e), env1) ->
  api.StatusCode response = 401%Z ->
  register r agent s c env =
    (Ret (Some e, retry.Break s,
          {| registered := reg; resp := Some response; err := Some e |}),
     env1, [Registering agent; rejected_warning e]).
Proof.
  intros Hc Hreg Hcode.
  unfold register, logger_Warn, bind, deref, emit, call, ret.
  rewrite Hc. cbn. rewrite Hreg. cbn. rewrite Hcode. reflexivity.
Qed.

Lemma register_transient (r : t) agent s c env client reg response e env1 :
  APIClient r = Some client ->
  Agents_Register client agent env = ((reg, Some response, Some e), env1) ->
  api.StatusCode response <> 401%Z ->
  register r agent s c env =
    (Ret (Some e, s,
          {| registered := reg; resp := Some response; err := Some e |}),
     env1, [Registering agent; transient_warning e s]).
Proof.
  intros Hc Hreg Hcode.
  unfold register, logger_Warn, bind, deref, emit, call, ret.
  rewrite Hc. cbn. rewrite Hreg. cbn.
  destruct (Z.eqb_spec (api.StatusCode response) 401); [contradiction|].
  reflexivity.
Qed.

Lemma register_nil_response (r : t) agent s c env client reg e env1 :
  APIClient r = Some client ->
  Agents_Register client agent env = ((reg, None, Some e), env1) ->
  register r agent s c env = (Panicked, env1, [Registering agent]).
Proof.
  intros Hc Hreg. unfold register, bind, deref, emit, call, panic.
  rewrite Hc. cbn. rewrite Hreg. reflexivity.
Qed.

Lemma register_quiet (r : t) agent s c env :
  Forall (fun e => quiet e = true) (trace_of (register r agent s c env)).
Proof.
  unfold register, logger_Warn, bind, deref, emit, call, ret, panic, trace_of.
  destruct (APIClient r) as [client|]; cbn; [|constructor].
  destruct (Agents_Register client agent env) as [[[reg [response|]] [e|]] env1];
    cbn; try (repeat constructor).
  destruct (api.StatusCode response =? 401)%Z; cbn; repeat constructor.
Qed.

Lemma register_not_Exited (r : t) agent s c env code :
  outcome_of (register r agent s c env) <> Exited code.
Proof.
  unfold register, logger_Warn, bind, deref, emit, call, ret, panic, outcome_of.
  destruct (APIClient r) as [client|]; cbn; [|discriminate].
  destruct (Agents_Register client agent env) as [[[reg [response|]] [e|]] env1];
    cbn; try discriminate.
  destruct (api.StatusCode response =? 401)%Z; cbn; discriminate.
Qed.

(** *** [RegisterAgent] *)

Lemma RegisterAgent_run (r : t) (agent : api.Agent) (env : Env) :
  exists o env1 tr,
    RegisterAgent r agent env = (o, env1, tr) /\
    Forall (fun e => quiet e = true) tr /\
    forall code, o <> Exited code.
Proof.
  unfold RegisterAgent, bind, relabel, retry.Do.
  pose proof (loop_trace_Forall time_Sleep (register r agent)
                register_config (fun x => quiet (of_retry x) = true)
                eq_refl eq_refl (register_quiet r agent)
                (Z.to_nat (retry.Maximum register_config - 1))
                {| retry.Attempt := 1; retry.StatsConfig := register_config;
                   retry.breakNext := false |}
                {| registered := None; resp := None; err := None |} env) as Htr.
  pose proof (loop_not_Exited time_Sleep (register r agent)
                register_config (register_not_Exited r agent)
                (Z.to_nat (retry.Maximum register_config - 1))
                {| retry.Attempt := 1; retry.StatsConfig := register_config;
                   retry.breakNext := false |}
                {| registered := None; resp := None; err := None |} env) as Hex.
  destruct (retry.loop _ _ _ _ _ _ _) as [[o env1] tr].
  unfold trace_of, outcome_of in *. cbn [fst snd] in *.
  assert (Hq : Forall (fun e => quiet e = true) (map of_retry tr))
    by (apply Forall_map; exact Htr).
  destruct o as [[e c]|code|]; cbn.
  - do 3 eexists. split; [reflexivity|]. split; [|discriminate].
    rewrite app_nil_r. exact Hq.
  - exfalso. exact (Hex code eq_refl).
  - do 3 eexists. split; [reflexivity|]. split; [exact Hq | discriminate].
Qed.

(** *** The signal callback *)

Lemma onSignal_QUIT (env : Env) :
  onSignal QUIT env =
    (Ret tt, AgentWorker_Stop env, [received_log QUIT; Stop]).
Proof.
  unfold onSignal, logger_Debug, bind, emit, call.
  destruct (decide (QUIT = QUIT)) as [_|Hne]; [reflexivity | contradiction].
Qed.

Lemma onSignal_other (sig : Signal) (env : Env) :
  sig <> QUIT -> onSignal sig env = (Ret tt, env, [ignoring_log sig]).
Proof.
  intros Hne. unfold onSignal, logger_Debug, emit.
  destruct (decide (sig = QUIT)) as [Heq|_]; [contradiction | reflexivity].
Qed.

Lemma deliver_run (sigs : list Signal) : forall env,
  exists tr,
    deliver sigs env =
      (Ret tt, Nat.iter (quits sigs) AgentWorker_Stop env, tr) /\
    Forall (fun e => of_callback e = true) tr /\
    count is_Stop tr = quits sigs.
Proof.
  induction sigs as [|sig sigs IH]; intros env.
  - exists []. repeat split. constructor.
  - cbn [deliver]. unfold quits. cbn [List.filter].
    destruct (decide (sig = QUIT)) as [->|Hne].
    + rewrite (bind_Ret _ _ _ _ _ _ (onSignal_QUIT env)).
      destruct (IH (AgentWorker_Stop env)) as (tr & Hrun & Hcb & Hn).
      rewrite Hrun. exists ([received_log QUIT; Stop] ++ tr).
      rewrite bool_decide_eq_true_2 by reflexivity. cbn [length].
      fold (quits sigs). rewrite Nat.iter_succ_r.
      split; [reflexivity|]. split.
      * apply Forall_app. split; [repeat constructor | exact Hcb].
      * rewrite count_app, Hn. reflexivity.
    + rewrite (bind_Ret _ _ _ _ _ _ (onSignal_other sig env Hne)).
      destruct (IH env) as (tr & Hrun & Hcb & Hn).
      rewrite Hrun. exists ([ignoring_log sig] ++ tr).
      rewrite bool_decide_eq_false_2 by exact Hne.
      fold (quits sigs).
      split; [reflexivity|]. split.
      * apply Forall_app. split; [repeat constructor | exact Hcb].
      * rewrite count_app, Hn. reflexivity.
Qed.

Lemma callbacks_run (env : Env) :
  exists s,
    callbacks env = (Ret tt, after_callbacks env, s) /\
    Forall (fun e => of_callback e = true) s /\
    count is_Stop s = quits (received env).1.
Proof.
  unfold callbacks, after_callbacks. rewrite bind_call.
  destruct (received env) as [sigs env1]. cbn [fst snd].
  destruct (deliver_run sigs env1) as (tr & Hrun & Hcb & Hn).
  exists tr. split; [exact Hrun|]. split; assumption.
Qed.

Lemma worker_Start_run (env : Env) :
  exists s1,
    worker_Start env =
      (Ret (AgentWorker_Start (after_callbacks env)).1,
       (AgentWorker_Start (after_callbacks env)).2,
       StartCalled :: s1 ++
       [StartReturned (AgentWorker_Start (after_callbacks env)).1]) /\
    Forall (fun e => of_callback e = true) s1 /\
    count is_Stop s1 = quits (received env).1.
Proof.
  destruct (callbacks_run env) as (s1 & Hrun & Hcb & Hn).
  exists s1. split; [|split; assumption].
  unfold worker_Start. rewrite bind_emit, (bind_Ret _ _ _ _ _ _ Hrun), bind_call.
  destruct (AgentWorker_Start (after_callbacks env)) as [err env1].
  unfold bind, emit, ret, prepend, outcome_of, env_of, trace_of. cbn.
  reflexivity.
Qed.

Lemma worker_Disconnect_run (env : Env) :
  exists s,
    worker_Disconnect env =
      (Ret tt, AgentWorker_Disconnect (after_callbacks env), Disconnect :: s) /\
    Forall (fun e => of_callback e = true) s /\
    count is_Stop s = quits (received env).1.
Proof.
  destruct (callbacks_run env) as (s & Hrun & Hcb & Hn).
  exists s. split; [|split; assumption].
  unfold worker_Disconnect.
  rewrite bind_emit, (bind_Ret _ _ _ _ _ _ Hrun).
  unfold call, prepend, outcome_of, env_of, trace_of. cbn.
  rewrite app_nil_r. reflexivity.
Qed.

(** *** The runs of [Start] *)

Lemma Start_run_prepend (r : t) (t : list event) x :
  Forall (fun e => quiet e = true) t ->
  Start_run r x -> Start_run r (prepend t x).
Proof.
  intros Ht Hx. destruct Hx as [env1 t0 Hq|env1 t0 e Hq|t0 x Hq Hw].
  - apply run_panicked. apply Forall_app. split; assumption.
  - unfold prepend, outcome_of, env_of, trace_of. cbn.
    rewrite app_assoc. apply run_unregistered.
    apply Forall_app. split; assumption.
  - rewrite prepend_prepend. apply run_worker; [|exact Hw].
    apply Forall_app. split; assumption.
Qed.

Lemma worker_part (r : t) (env : Env) (k : M Env event (option error)) :
  k = (let* err := worker_Connect in
       (match err with
        | Some e => logger_Fatal "%s" [e]
        | None => ret tt
        end) ;;;
       logger_Info "Agent successfully connected" [] ;;;
       logger_Info "You can press Ctrl-C to stop the agent" [] ;;;
       logger_Info "Waiting for work..." [] ;;;
       emit Watch ;;;
       callbacks ;;;
       let* err := worker_Start in
       callbacks ;;;
       (match err with
        | Some e => logger_Fatal "%s" [e]
        | None => ret tt
        end) ;;;
       let* w := ask worker in
       logger_Info "Disconnecting %s..." [api.Name (AgentWorker.Agent w)] ;;;
       callbacks ;;;
       worker_Disconnect ;;;
       callbacks ;;;
       let* w := ask worker in
       if AgentConfiguration.ExitWithStatus (AgentConfiguration r)
       then os_Exit (AgentWorker.ExitStatus w)
       else ret None) ->
  worker_run r (k env).
Proof.
  intros ->.
  assert (Hc : worker_Connect env =
               (Ret (AgentWorker_Connect env).1, (AgentWorker_Connect env).2,
                [Connected (AgentWorker_Connect env).1])).
  { unfold worker_Connect, bind, call, emit, ret.
    destruct (AgentWorker_Connect env) as [err env1]. reflexivity. }
  rewrite (bind_Ret _ _ _ _ _ _ Hc). clear Hc.
  destruct (AgentWorker_Connect env) as [[e|] env1]; cbn [fst snd].
  - unfold logger_Fatal, bind, emit, ret, os_Exit. cbn. apply connect_failed.
  - rewrite bind_ret.
    unfold logger_Info. rewrite !bind_emit.
    destruct (callbacks_run env1) as (s0 & H0' & Hcb0 & _).
    rewrite (bind_Ret _ _ _ _ _ _ H0').
    destruct (worker_Start_run (after_callbacks env1)) as (s1 & H1' & Hcb1 & _).
    rewrite (bind_Ret _ _ _ _ _ _ H1').
    destruct (AgentWorker_Start (after_callbacks (after_callbacks env1)))
      as [err env2]. cbn [fst snd].
    destruct (callbacks_run env2) as (s2 & H2' & Hcb2 & _).
    rewrite (bind_Ret _ _ _ _ _ _ H2').
    destruct err as [e|].
    + unfold logger_Fatal, bind, emit, os_Exit, prepend,
        outcome_of, env_of, trace_of. cbn.
      pose proof (start_failed r (after_callbacks env2) s0 s1 s2 e
                    Hcb0 Hcb1 Hcb2) as Hrun.
      unfold running, connected_logs in Hrun. cbn in Hrun.
      rewrite <- !app_assoc in Hrun. cbn in Hrun.
      rewrite <- ?app_assoc in Hrun. rewrite <- ?app_assoc. exact Hrun.
    + rewrite bind_ret, bind_ask, bind_emit.
      set (name := api.Name (AgentWorker.Agent (worker (after_callbacks env2)))).
      destruct (callbacks_run (after_callbacks env2)) as (s3 & H3' & Hcb3 & _).
      rewrite (bind_Ret _ _ _ _ _ _ H3').
      destruct (worker_Disconnect_run (after_callbacks (after_callbacks env2)))
        as (s4 & H4' & Hcb4 & _).
      rewrite (bind_Ret _ _ _ _ _ _ H4').
      destruct (callbacks_run
                  (AgentWorker_Disconnect
                     (after_callbacks (after_callbacks (after_callbacks env2)))))
        as (s5 & H5' & Hcb5 & _).
      rewrite (bind_Ret _ _ _ _ _ _ H5'), bind_ask.
      assert (Hcb45 : Forall (fun e => of_callback e = true) (s4 ++ s5))
        by (apply Forall_app; split; assumption).
      pose proof (finished r (after_callbacks (after_callbacks env2))
                    s0 s1 s2 s3 (s4 ++ s5) name Hcb0 Hcb1 Hcb2 Hcb3 Hcb45)
        as Hrun.
      unfold running, connected_logs, disconnecting_log in Hrun.
      rewrite !prepend_prepend.
      destruct (AgentConfiguration.ExitWithStatus (AgentConfiguration r));
        unfold os_Exit, ret, prepend, outcome_of, env_of, trace_of;
        cbn [fst snd]; cbn [app] in *;
        rewrite <- ?app_assoc in Hrun; cbn [app] in Hrun;
        rewrite <- ?app_assoc; cbn [app]; rewrite ?app_nil_r; exact Hrun.
Qed.

Lemma Start_complete (r : t) (env : Env) : Start_run r (Start r env).
Proof.
  unfold Start.
  destruct (ShowBanner_run r env) as (tb & Hb & Qb).
  rewrite (bind_Ret _ _ _ _ _ _ Hb). apply Start_run_prepend; [exact Qb|].
  set (r1 := with_APIClient r _).
  destruct (CreateAgentTemplate_run r1 env) as (template & env1 & tt1 & Ht & Qt).
  rewrite (bind_Ret _ _ _ _ _ _ Ht). apply Start_run_prepend; [exact Qt|].
  unfold logger_Info at 1. rewrite bind_emit.
  apply Start_run_prepend; [repeat constructor|].
  destruct (RegisterAgent_run r1 template env1)
    as (o & env2 & tr & Hr & Qr & Hne).
  destruct o as [[registered [e|]]|code|].
  - rewrite (bind_Ret _ _ _ _ _ _ Hr). apply Start_run_prepend; [exact Qr|].
    unfold logger_Fatal, bind, emit, os_Exit. cbn.
    apply (run_unregistered r env2 [] e). constructor.
  - rewrite (bind_Ret _ _ _ _ _ _ Hr). apply Start_run_prepend; [exact Qr|].
    rewrite (bind_Ret _ _ env2 tt env2 []) by reflexivity.
    rewrite prepend_nil.
    destruct registered as [registered|].
    + rewrite (bind_Ret _ _ env2 registered env2 []) by reflexivity.
      rewrite prepend_nil.
      unfold logger_Info at 1. rewrite bind_emit.
      apply Start_run_prepend; [repeat constructor|].
      rewrite bind_call. cbn [fst snd].
      unfold logger_Info at 1. rewrite bind_emit.
      apply Start_run_prepend; [repeat constructor|].
      rewrite <- prepend_nil. apply run_worker; [constructor|].
      apply worker_part. reflexivity.
    + rewrite (bind_Panicked _ _ env2 env2 []) by reflexivity.
      apply run_panicked. constructor.
  - exfalso. exact (Hne code eq_refl).
  - rewrite (bind_Panicked _ _ _ _ _ Hr). apply run_panicked. exact Qr.
Qed.

(** *** The calls on the worker in a run of [Start] *)

Lemma calls_app (t1 t2 : list event) : calls (t1 ++ t2) = calls t1 ++ calls t2.
Proof. apply List.filter_app. Qed.

Lemma calls_quiet (t : list event) :
  Forall (fun e => quiet e = true) t -> calls t = [].
Proof.
  induction 1 as [|e t He _ IH]; [reflexivity|].
  unfold calls in *. cbn. unfold quiet in He.
  destruct (on_worker e); [discriminate | exact IH].
Qed.

Lemma calls_of_callback (t : list event) :
  Forall (fun e => of_callback e = true) t ->
  calls t = repeat Stop (count is_Stop t).
Proof.
  induction 1 as [|e t He _ IH]; [reflexivity|].
  unfold calls, count in *.
  destruct e as [| [] | | | | | | | |]; try discriminate He; cbn; try exact IH.
  f_equal. exact IH.
Qed.

Lemma count_calls (p : event -> bool) (t : list event) :
  (forall e, p e = true -> on_worker e = true) ->
  count p t = count p (calls t).
Proof.
  intros Hp. unfold count, calls.
  induction t as [|e t IH]; [reflexivity|]. cbn.
  destruct (p e) eqn:He.
  - rewrite (Hp e He). cbn. rewrite He. cbn. f_equal. exact IH.
  - destruct (on_worker e); cbn; rewrite ?He; exact IH.
Qed.

Lemma In_calls (e : event) (t : list event) :
  on_worker e = true -> In e t -> In e (calls t).
Proof. intros He Hin. apply List.filter_In. split; assumption. Qed.

Lemma count_FATAL_quiet (t : list event) :
  Forall (fun e => quiet e = true) t -> count (is_Log FATAL) t = 0%nat.
Proof.
  apply count_none. intros e He. unfold quiet in He.
  destruct (is_Log FATAL e); [|reflexivity].
  rewrite andb_false_r in He. discriminate.
Qed.

Lemma count_FATAL_of_callback (t : list event) :
  Forall (fun e => of_callback e = true) t -> count (is_Log FATAL) t = 0%nat.
Proof.
  apply count_none. intros e He.
  destruct e as [| [] | | | | | | | |]; try discriminate He; reflexivity.
Qed.

Lemma calls_running (s0 s1 : list event) (err : option error) :
  Forall (fun e => of_callback e = true) s0 ->
  Forall (fun e => of_callback e = true) s1 ->
  calls (running s0 s1 err) =
    Connected None :: Watch :: repeat Stop (count is_Stop s0) ++
    StartCalled :: repeat Stop (count is_Stop s1) ++ [StartReturned err].
Proof.
  intros Hcb0 Hcb1. unfold running, connected_logs. cbn [app].
  change (?a :: ?b :: ?c :: ?d :: ?e :: s0 ++ ?f :: s1 ++ ?l)
    with ([a; b; c; d; e] ++ s0 ++ [f] ++ s1 ++ l).
  rewrite !calls_app, (calls_of_callback s0 Hcb0), (calls_of_callback s1 Hcb1).
  reflexivity.
Qed.

Lemma count_FATAL_running (s0 s1 : list event) (err : option error) :
  Forall (fun e => of_callback e = true) s0 ->
  Forall (fun e => of_callback e = true) s1 ->
  count (is_Log FATAL) (running s0 s1 err) = 0%nat.
Proof.
  intros Hcb0 Hcb1. unfold running, connected_logs. cbn [app].
  change (?a :: ?b :: ?c :: ?d :: ?e :: s0 ++ ?f :: s1 ++ ?l)
    with ([a; b; c; d; e] ++ s0 ++ [f] ++ s1 ++ l).
  rewrite !count_app, (count_FATAL_of_callback s0 Hcb0),
    (count_FATAL_of_callback s1 Hcb1).
  reflexivity.
Qed.

Lemma In_running (s0 s1 : list event) (err : option error) :
  In (StartReturned err) (running s0 s1 err).
Proof.
  unfold running. right. apply in_or_app. right. right.
  apply in_or_app. right. right. apply in_or_app. right. left. reflexivity.
Qed.

Lemma Start_ends (r : t) (env : Env) : exists x, ends r x (Start r env).
Proof.
  destruct (Start_complete r env) as [env1 t0 Hq|env1 t0 e Hq|t0 x Hq Hw].
  - exists BeforeWorker. split; [apply calls_quiet, Hq|].
    left. split; [reflexivity | apply count_FATAL_quiet, Hq].
  - exists BeforeWorker. split; [|right; reflexivity].
    unfold trace_of. cbn. rewrite calls_app, (calls_quiet t0 Hq). reflexivity.
  - destruct Hw as [env1 e|env1 s0 s1 s2 e Hcb0 Hcb1 Hcb2
                   |env1 s0 s1 s2 s3 s4 name Hcb0 Hcb1 Hcb2 Hcb3 Hcb4].
    + exists (ConnectFailed e). split; [|reflexivity].
      unfold prepend, trace_of. cbn.
      rewrite calls_app, (calls_quiet t0 Hq). reflexivity.
    + exists (StartFailed (count is_Stop s0) (count is_Stop s1)
                (count is_Stop s2) e).
      split; [|reflexivity].
      unfold prepend, trace_of. cbn [fst snd].
      rewrite !calls_app, (calls_quiet t0 Hq), (calls_running s0 s1 _ Hcb0 Hcb1),
        (calls_of_callback s2 Hcb2).
      cbn [app calls_of]. rewrite <- !app_assoc. cbn [app].
      rewrite <- !app_assoc. cbn [app calls List.filter on_worker fatal_log].
      rewrite app_nil_r. reflexivity.
    + exists (Finished (count is_Stop s0) (count is_Stop s1)
                (count is_Stop s2 + count is_Stop s3) (count is_Stop s4)).
      split; [|split; [|split; [|split]]].
      * unfold prepend, trace_of. cbn [fst snd].
        change (disconnecting_log name :: s3 ++ Disconnect :: s4)
          with ([disconnecting_log name] ++ s3 ++ [Disconnect] ++ s4).
        rewrite !calls_app, (calls_quiet t0 Hq),
          (calls_running s0 s1 _ Hcb0 Hcb1), (calls_of_callback s2 Hcb2),
          (calls_of_callback s3 Hcb3), (calls_of_callback s4 Hcb4).
        cbn [app calls_of]. rewrite repeat_app, <- !app_assoc. cbn [app].
        rewrite <- !app_assoc. reflexivity.
      * reflexivity.
      * unfold prepend, trace_of. cbn [fst snd].
        change (disconnecting_log name :: s3 ++ Disconnect :: s4)
          with ([disconnecting_log name] ++ s3 ++ [Disconnect] ++ s4).
        rewrite !count_app, (count_FATAL_quiet t0 Hq),
          (count_FATAL_running s0 s1 _ Hcb0 Hcb1),
          (count_FATAL_of_callback s2 Hcb2), (count_FATAL_of_callback s3 Hcb3),
          (count_FATAL_of_callback s4 Hcb4).
        reflexivity.
      * unfold prepend, trace_of. cbn [fst snd].
        exists (t0 ++ running s0 s1 None ++ s2 ++ disconnecting_log name :: s3),
          s4.
        split; [|split; [|exact Hcb4]].
        -- rewrite <- !app_assoc. cbn [app]. rewrite <- ?app_assoc. reflexivity.
        -- apply in_or_app. right. apply in_or_app. left. apply In_running.
      * exists env1. reflexivity.
Qed.

Lemma In_repeat_Stop (e : event) (n : nat) : In e (repeat Stop n) -> e = Stop.
Proof. exact (repeat_spec n Stop e). Qed.

Lemma count_repeat_Stop (p : event -> bool) (n : nat) :
  p Stop = false -> count p (repeat Stop n) = 0%nat.
Proof.
  intros Hp. unfold count.
  induction n as [|n IH]; [reflexivity|]. cbn. rewrite Hp. exact IH.
Qed.

(** Membership in the calls of an ending, case by case. *)
Ltac in_calls H :=
  repeat match type of H with
         | In _ (repeat Stop _ ++ _) =>
             apply in_app_or in H;
             destruct H as [H|H];
             [apply In_repeat_Stop in H; discriminate H|]
         | In _ (repeat Stop _) =>
             apply In_repeat_Stop in H; discriminate H
         | In _ (_ :: _) =>
             destruct H as [H|H]; [try discriminate H|]
         | In _ [] => destruct H
         end.

(** What the calls of each ending contain. *)
Lemma StartReturned_in_calls (x : ending) (err : option error) :
  In (StartReturned err) (calls_of x) ->
  match err with
  | None => exists n0 n1 n2 n3, x = Finished n0 n1 n2 n3
  | Some e => exists n0 n1 n2, x = StartFailed n0 n1 n2 e
  end.
Proof.
  destruct x as [|e|n0 n1 n2 e|n0 n1 n2 n3]; cbn [calls_of]; intros Hin.
  - in_calls Hin.
  - in_calls Hin.
  - in_calls Hin. injection Hin as <-. exists n0, n1, n2. reflexivity.
  - in_calls Hin. injection Hin as <-. exists n0, n1, n2, n3. reflexivity.
Qed.

Lemma Connected_in_calls (x : ending) (e : error) :
  In (Connected (Some e)) (calls_of x) -> x = ConnectFailed e.
Proof.
  destruct x as [|e1|n0 n1 n2 e1|n0 n1 n2 n3]; cbn [calls_of]; intros Hin.
  - in_calls Hin.
  - in_calls Hin. injection Hin as ->. reflexivity.
  - in_calls Hin.
  - in_calls Hin.
Qed.

Lemma Disconnect_in_calls (x : ending) :
  In Disconnect (calls_of x) -> exists n0 n1 n2 n3, x = Finished n0 n1 n2 n3.
Proof.
  destruct x as [|e|n0 n1 n2 e|n0 n1 n2 n3]; cbn [calls_of]; intros Hin.
  - in_calls Hin.
  - in_calls Hin.
  - in_calls Hin.
  - exists n0, n1, n2, n3. reflexivity.
Qed.

Lemma count_Disconnect_calls (x : ending) :
  count is_Disconnect (calls_of x) =
    match x with Finished _ _ _ _ => 1%nat | _ => 0%nat end.
Proof.
  destruct x as [|e|n0 n1 n2 e|n0 n1 n2 n3]; try reflexivity; cbn [calls_of];
    repeat (rewrite count_cons || rewrite count_app
            || rewrite count_repeat_Stop by reflexivity);
    reflexivity.
Qed.

(** *** The claims about [Start] *)

(** C1, as the code has it.  In every run of [Start] in which the worker's
    [Start] call returns nil (also after a [Stop] from the signal callback),
    [Disconnect] is invoked exactly once, after that return: only events of
    the signal callback follow the call, and the world at the end of the run
    is the one the call leaves, up to the callbacks that run while it is
    under way and after it.  When the worker's [Start] call returns an
    error, the fatal log terminates the process and [Disconnect] is not
    invoked. *)
Theorem Start_Disconnect (r : t) (env : Env) (err : option error) :
  In (StartReturned err) (trace_of (Start r env)) ->
  match err with
  | None =>
      count is_Disconnect (trace_of (Start r env)) = 1%nat /\
      (exists t0 s,
         trace_of (Start r env) = t0 ++ Disconnect :: s /\
         In (StartReturned None) t0 /\
         Forall (fun e => of_callback e = true) s) /\
      exists env1,
        env_of (Start r env) =
          after_callbacks (AgentWorker_Disconnect (after_callbacks env1))
  | Some e =>
      count is_Disconnect (trace_of (Start r env)) = 0%nat /\
      outcome_of (Start r env) = Exited fatal_status
  end.
Proof.
  intros Hin. destruct (Start_ends r env) as (x & Hcalls & Hend).
  apply (In_calls (StartReturned err) _ eq_refl) in Hin.
  rewrite Hcalls in Hin. apply StartReturned_in_calls in Hin.
  rewrite (count_calls is_Disconnect), Hcalls, count_Disconnect_calls
    by (intros [] ?; try discriminate; reflexivity).
  destruct err as [e|].
  - destruct Hin as (n0 & n1 & n2 & ->). split; [reflexivity | exact Hend].
  - destruct Hin as (n0 & n1 & n2 & n3 & ->).
    destruct Hend as (_ & _ & Hshape & Henv).
    split; [reflexivity|]. split; assumption.
Qed.

(** C4.  In every run of [Start] in which [Connect] returns an error, the
    process terminates through the fatal log, the watcher is never armed,
    and none of [Start], [Stop] and [Disconnect] is invoked on the
    worker. *)
Theorem Start_Connect_failed (r : t) (env : Env) (e : error) :
  In (Connected (Some e)) (trace_of (Start r env)) ->
  outcome_of (Start r env) = Exited fatal_status /\
  count is_Watch (trace_of (Start r env)) = 0%nat /\
  count is_StartCalled (trace_of (Start r env)) = 0%nat /\
  count is_Stop (trace_of (Start r env)) = 0%nat /\
  count is_Disconnect (trace_of (Start r env)) = 0%nat /\
  calls (trace_of (Start r env)) = [Connected (Some e)].
Proof.
  intros Hin. destruct (Start_ends r env) as (x & Hcalls & Hend).
  apply (In_calls (Connected (Some e)) _ eq_refl) in Hin.
  rewrite Hcalls in Hin. apply Connected_in_calls in Hin. subst x.
  rewrite (count_calls is_Watch), (count_calls is_StartCalled),
    (count_calls is_Stop), (count_calls is_Disconnect), Hcalls
    by (intros [] ?; try discriminate; reflexivity).
  repeat split. exact Hend.
Qed.

(** C5.  Once the worker's [Start] call has returned and [Disconnect] has
    run: when the configuration asks for the exit status, the process exits
    with the exit status recorded in the worker; otherwise [Start] returns
    nil. *)
Theorem Start_exit_status (r : t) (env : Env) (err : option error) :
  In (StartReturned err) (trace_of (Start r env)) ->
  In Disconnect (trace_of (Start r env)) ->
  outcome_of (Start r env) =
    if AgentConfiguration.ExitWithStatus (AgentConfiguration r)
    then Exited (AgentWorker.ExitStatus (worker (env_of (Start r env))))
    else Ret None.
Proof.
  intros _ Hin. destruct (Start_ends r env) as (x & Hcalls & Hend).
  apply (In_calls Disconnect _ eq_refl) in Hin.
  rewrite Hcalls in Hin.
  apply Disconnect_in_calls in Hin. destruct Hin as (n0 & n1 & n2 & n3 & ->).
  apply Hend.
Qed.

(** C9.  Whenever [Start] returns, it returns nil: a run that returns has
    logged no fatal line and does not propagate the exit status; and a run
    that logs a fatal line terminates the process instead of returning. *)
Theorem Start_returns_nil (r : t) (env : Env) :
  (forall err, outcome_of (Start r env) = Ret err ->
     err = None /\
     AgentConfiguration.ExitWithStatus (AgentConfiguration r) = false /\
     count (is_Log FATAL) (trace_of (Start r env)) = 0%nat) /\
  (count (is_Log FATAL) (trace_of (Start r env)) <> 0%nat ->
     outcome_of (Start r env) = Exited fatal_status).
Proof.
  destruct (Start_ends r env) as (x & Hcalls & Hend).
  destruct x as [|e|n0 n1 n2 e|n0 n1 n2 n3].
  - destruct Hend as [[Hout Hfatal]|Hout]; (split; [intros err Hret|intros Hf]);
      congruence.
  - split; [intros err Hret|intros Hf]; congruence.
  - split; [intros err Hret|intros Hf]; congruence.
  - destruct Hend as (Hout & Hfatal & _).
    split; [intros err Hret|intros Hf; contradiction].
    rewrite Hout in Hret.
    destruct (AgentConfiguration.ExitWithStatus (AgentConfiguration r));
      [discriminate|].
    injection Hret as <-. repeat split. exact Hfatal.
Qed.

(** C3.  The signal callback makes exactly one [Stop] call when the signal
    is [QUIT], and that call is made on the worker: the world it leaves is
    the one [Stop] leaves.  For any other signal it makes no [Stop] call,
    writes one debug line and leaves the world as it is.  Over the signals
    that are delivered, [Stop] is called on the worker once per [QUIT]; and
    while the worker's [Start] is blocked, these calls are made between the
    call of [Start] and its return, on the worker that [Start] runs. *)
Theorem onSignal_Stop (sig : Signal) (env : Env) :
  (count is_Stop (trace_of (onSignal sig env)) = 1%nat <-> sig = QUIT) /\
  (count is_Stop (trace_of (onSignal sig env)) = 0%nat <-> sig <> QUIT) /\
  (sig = QUIT ->
     onSignal sig env =
       (Ret tt, AgentWorker_Stop env, [received_log sig; Stop])) /\
  (sig <> QUIT -> onSignal sig env = (Ret tt, env, [ignoring_log sig])) /\
  (forall sigs,
     count is_Stop (trace_of (deliver sigs env)) = quits sigs /\
     env_of (deliver sigs env) = Nat.iter (quits sigs) AgentWorker_Stop env /\
     outcome_of (deliver sigs env) = Ret tt) /\
  exists s1,
    let sigs := (received env).1 in
    let env1 := Nat.iter (quits sigs) AgentWorker_Stop (received env).2 in
    worker_Start env =
      (Ret (AgentWorker_Start env1).1, (AgentWorker_Start env1).2,
       StartCalled :: s1 ++ [StartReturned (AgentWorker_Start env1).1]) /\
    calls s1 = repeat Stop (quits sigs).
Proof.
  assert (Hsigs : forall sigs,
    count is_Stop (trace_of (deliver sigs env)) = quits sigs /\
    env_of (deliver sigs env) = Nat.iter (quits sigs) AgentWorker_Stop env /\
    outcome_of (deliver sigs env) = Ret tt).
  { intros sigs. destruct (deliver_run sigs env) as (tr & Hrun & _ & Hn).
    rewrite Hrun. split; [exact Hn|]. split; reflexivity. }
  assert (Hstart : exists s1,
    let sigs := (received env).1 in
    let env1 := Nat.iter (quits sigs) AgentWorker_Stop (received env).2 in
    worker_Start env =
      (Ret (AgentWorker_Start env1).1, (AgentWorker_Start env1).2,
       StartCalled :: s1 ++ [StartReturned (AgentWorker_Start env1).1]) /\
    calls s1 = repeat Stop (quits sigs)).
  { destruct (worker_Start_run env) as (s1 & Hrun & Hcb & Hn).
    exists s1. cbv zeta. split; [exact Hrun|].
    rewrite (calls_of_callback s1 Hcb), Hn. reflexivity. }
  destruct (decide (sig = QUIT)) as [->|Hne].
  - rewrite onSignal_QUIT. cbn.
    split; [split; [reflexivity | reflexivity]|].
    split; [split; [discriminate | congruence]|].
    split; [reflexivity|]. split; [congruence|].
    split; [exact Hsigs | exact Hstart].
  - rewrite (onSignal_other sig env Hne). cbn.
    split; [split; [discriminate | congruence]|].
    split; [split; [congruence | reflexivity]|].
    split; [congruence|]. split; [reflexivity|].
    split; [exact Hsigs | exact Hstart].
Qed.

(** C2.  An attempt whose [Register] call fails with status code 401 sets
    the break flag and logs one warning; the retry loop, whatever the
    attempt and the attempts that remain, stops there without a sleep and
    returns that error; and when the first call is rejected so,
    [RegisterAgent] calls the service exactly once and returns that
    error. *)
Theorem RegisterAgent_rejected (r : t) (agent : api.Agent) client
    (env env1 : Env) reg response (e : error) :
  APIClient r = Some client ->
  Agents_Register client agent env = ((reg, Some response, Some e), env1) ->
  api.StatusCode response = 401%Z ->
  (forall s c,
     exists c1,
       register r agent s c env =
         (Ret (Some e, retry.Break s, c1), env1,
          [Registering agent; rejected_warning e]) /\
       retry.breakNext (retry.Break s) = true /\
       forall k,
         retry.loop time_Sleep (register r agent) register_config k s c env =
           (Ret (Some e, c1), env1,
            [inl retry.Invoke; inr (Registering agent);
             inr (rejected_warning e)])) /\
  RegisterAgent r agent env =
    (Ret (reg, Some e), env1,
     [Retry retry.Invoke; Registering agent; rejected_warning e]) /\
  count is_Register (trace_of (RegisterAgent r agent env)) = 1%nat /\
  count (is_Log WARN) (trace_of (RegisterAgent r agent env)) = 1%nat /\
  count is_Sleep (trace_of (RegisterAgent r agent env)) = 0%nat.
Proof.
  intros Hc Hreg Hcode.
  assert (Hloop : forall s c k,
    retry.loop time_Sleep (register r agent) register_config k s c env =
      (Ret (Some e, {| registered := reg; resp := Some response;
                       err := Some e |}), env1,
       [inl retry.Invoke; inr (Registering agent);
        inr (rejected_warning e)])).
  { intros s c k.
    apply (loop_abort time_Sleep (register r agent) register_config
             k s c env e (retry.Break s) _ env1
             [Registering agent; rejected_warning e]);
      [|reflexivity].
    apply (register_rejected r agent s c env client reg response e env1);
      assumption. }
  assert (Hrun : RegisterAgent r agent env =
    (Ret (reg, Some e), env1,
     [Retry retry.Invoke; Registering agent; rejected_warning e])).
  { unfold RegisterAgent, retry.Do, bind, relabel.
    rewrite Hloop. reflexivity. }
  split; [|rewrite Hrun; repeat split].
  intros s c. eexists. split; [|split; [reflexivity|]].
  - apply (register_rejected r agent s c env client reg response e env1);
      assumption.
  - intros k. apply Hloop.
Qed.

(** C8.  When the [Register] call returns an error, the closure reads
    [resp.StatusCode]: it panics on a nil dereference exactly when the
    response is nil, and such a panic is a panic of the retry loop and of
    [RegisterAgent]. *)
Theorem register_nil_dereference (r : t) (agent : api.Agent) client
    (s : retry.Stats) (c : captured) (env env1 : Env) reg response (e : error) :
  APIClient r = Some client ->
  Agents_Register client agent env = ((reg, response, Some e), env1) ->
  (outcome_of (register r agent s c env) = Panicked <-> response = None) /\
  (response = None ->
     (forall k,
        outcome_of (retry.loop time_Sleep (register r agent)
                      register_config k s c env) = Panicked) /\
     outcome_of (RegisterAgent r agent env) = Panicked).
Proof.
  intros Hc Hreg. split.
  - destruct response as [response|].
    + split; [|discriminate]. intros Hp. exfalso. revert Hp.
      destruct (Z.eq_dec (api.StatusCode response) 401) as [Hcode|Hcode].
      * rewrite (register_rejected r agent s c env client reg response e env1)
          by assumption. discriminate.
      * rewrite (register_transient r agent s c env client reg response e env1)
          by assumption. discriminate.
    + rewrite (register_nil_response r agent s c env client reg e env1)
        by assumption. split; reflexivity.
  - intros ->. split.
    + intros k.
      rewrite (loop_panic time_Sleep (register r agent) register_config
                 k s c env env1 [Registering agent]); [reflexivity|].
      apply (register_nil_response r agent s c env client reg e env1);
        assumption.
    + unfold RegisterAgent, retry.Do, bind, relabel.
      rewrite (loop_panic time_Sleep (register r agent) register_config
                 _ _ _ env env1 [Registering agent]); [reflexivity|].
      apply (register_nil_response r agent _ _ env client reg e env1);
        assumption.
Qed.

(** *** The claims about [CreateAgentTemplate] *)

Lemma fold_add_tag (entries : list (string * string)) : forall agent,
  fold_left add_tag entries agent =
    api.with_MetaData agent (api.MetaData agent ++ tag_strings entries).
Proof.
  induction entries as [|entry entries IH]; intros agent.
  - cbn. rewrite app_nil_r. destruct agent. reflexivity.
  - cbn [fold_left]. rewrite IH. unfold add_tag, api.with_MetaData. cbn.
    rewrite <- app_assoc. reflexivity.
Qed.

Lemma CreateAgentTemplate_with_APIClient (r : t) (c : option Client) :
  CreateAgentTemplate (with_APIClient r c) = CreateAgentTemplate r.
Proof. reflexivity. Qed.

(** C10.  [CreateAgentTemplate] returns a descriptor whose [MetaData] is the
    configured list followed by the strings [tag=value] of the tags, in the
    order the loop visited them (nothing is added when enrichment is off or
    the lookup fails), and whose [Name], [Priority], [ScriptEvalEnabled],
    [Version] and [PID] are those of the configuration and the process. *)
Theorem CreateAgentTemplate_frame (r : t) (env : Env) :
  exists agent extra,
    outcome_of (CreateAgentTemplate r env) = Ret agent /\
    api.MetaData agent = MetaData r ++ extra /\
    (if MetaDataEC2Tags r then
       match EC2Tags_Get env with
       | ((tags, None), _) =>
           Permutation extra (tag_strings (map_to_list tags))
       | ((_, Some _), _) => extra = []
       end
     else extra = []) /\
    api.Name agent = Name r /\
    api.Priority agent = Priority r /\
    api.ScriptEvalEnabled agent =
      AgentConfiguration.CommandEval (AgentConfiguration r) /\
    api.Version agent = Version /\
    api.PID agent = os_Getpid env.
Proof.
  unfold CreateAgentTemplate, logger_Error, bind, ask, call, emit, ret,
    outcome_of.
  destruct (MetaDataEC2Tags r).
  - destruct (EC2Tags_Get env) as [[tags [e|]] env1];
      destruct (os_Hostname env1) as [hostname herr];
      destruct (OSDump env1) as [[os oerr] env2]; cbn.
    + eexists. exists []. rewrite app_nil_r. repeat split.
    + rewrite fold_add_tag. cbn.
      eexists. exists (tag_strings (range_order tags env1)).
      repeat split.
      unfold tag_strings. apply Permutation_map, range_order_perm.
  - destruct (os_Hostname env) as [hostname herr];
      destruct (OSDump env) as [[os oerr] env2]; cbn.
    eexists. exists []. rewrite app_nil_r. repeat split.
Qed.

Lemma register_begins (r : t) agent s c env client :
  APIClient r = Some client ->
  exists rest,
    trace_of (register r agent s c env) = Registering agent :: rest.
Proof.
  intros Hc. unfold register, deref. rewrite Hc, bind_ret, bind_emit.
  unfold prepend, trace_of. cbn [snd app]. eexists. reflexivity.
Qed.

Lemma RegisterAgent_begins (r : t) agent env client :
  APIClient r = Some client ->
  exists rest,
    trace_of (RegisterAgent r agent env) =
      Retry retry.Invoke :: Registering agent :: rest.
Proof.
  intros Hc. unfold RegisterAgent.
  match goal with
  | |- context [bind ?m ?k env] =>
      destruct (trace_bind m k env) as (rest2 & ->)
  end.
  unfold relabel, retry.Do.
  match goal with
  | |- context [retry.loop ?sl ?cb ?cfg ?k ?s ?c env] =>
      destruct (loop_begins sl cb cfg k s c env) as (rest3 & Hl);
      destruct (register_begins r agent s c env client Hc) as (rest4 & Hr);
      destruct (retry.loop sl cb cfg k s c env) as [[o3 env3] t3]
  end.
  unfold trace_of in Hl, Hr |- *. cbn [snd] in Hl |- *. subst t3.
  rewrite Hr. cbn. eexists. reflexivity.
Qed.

Lemma Start_registers (r : t) (env : Env) :
  exists agent t0 rest,
    outcome_of (CreateAgentTemplate r env) = Ret agent /\
    trace_of (Start r env) = t0 ++ Registering agent :: rest /\
    Forall (fun e => quiet e = true) t0.
Proof.
  unfold Start.
  destruct (ShowBanner_run r env) as (tb & Hb & Qb).
  rewrite (bind_Ret _ _ _ _ _ _ Hb).
  set (r1 := with_APIClient r _).
  destruct (CreateAgentTemplate_run r1 env) as (template & env1 & tt1 & Ht & Qt).
  rewrite (bind_Ret _ _ _ _ _ _ Ht).
  unfold logger_Info at 1. rewrite bind_emit.
  match goal with
  | |- context [bind (RegisterAgent r1 template) ?k env1] =>
      destruct (trace_bind (RegisterAgent r1 template) k env1) as (rest1 & Hb1);
      set (x := bind (RegisterAgent r1 template) k env1) in *
  end.
  destruct (RegisterAgent_begins r1 template env1 _ eq_refl) as (rest & Hfirst).
  exists template,
    (tb ++ tt1 ++
     [Log INFO "Registering agent with Buildkite..." []; Retry retry.Invoke]),
    (rest ++ rest1).
  split; [|split].
  - rewrite <- (CreateAgentTemplate_with_APIClient r (APIClient r1)).
    change (with_APIClient r (APIClient r1)) with r1.
    rewrite Ht. reflexivity.
  - unfold prepend, trace_of in *. cbn [snd] in *.
    rewrite Hb1, Hfirst. rewrite <- !app_assoc. reflexivity.
  - apply Forall_app. split; [exact Qb|].
    apply Forall_app. split; [exact Qt | repeat constructor].
Qed.

(** C7.  With tag enrichment enabled and a failing lookup,
    [CreateAgentTemplate] logs the failure once as an error, nothing fatal,
    and returns the descriptor with the configured metadata alone; [Start]
    then calls the registration service with that descriptor, with no fatal
    log line before the call. *)
Theorem CreateAgentTemplate_lookup_failure (r : t) (env env1 : Env) tags
    (e : error) :
  MetaDataEC2Tags r = true ->
  EC2Tags_Get env = ((tags, Some e), env1) ->
  exists agent,
    outcome_of (CreateAgentTemplate r env) = Ret agent /\
    trace_of (CreateAgentTemplate r env) =
      [Log ERROR ("Failed to find EC2 Tags: " +:+ e) []] /\
    api.MetaData agent = MetaData r /\
    exists t0 rest,
      trace_of (Start r env) = t0 ++ Registering agent :: rest /\
      count (is_Log FATAL) t0 = 0%nat.
Proof.
  intros Hon Hget.
  destruct (Start_registers r env)
    as (agent & t0 & rest & Hagent & Htrace & Hq).
  exists agent. split; [exact Hagent|].
  revert Hagent.
  unfold CreateAgentTemplate, logger_Error, bind, ask, call, emit, ret,
    outcome_of, trace_of.
  rewrite Hon, Hget.
  destruct (os_Hostname env1) as [hostname herr];
    destruct (OSDump env1) as [[os oerr] env2]; cbn.
  intros [= <-]. split; [reflexivity|]. split; [reflexivity|].
  exists t0, rest. split; [exact Htrace | apply count_FATAL_quiet, Hq].
Qed.

(** *** More about [CreateAgentTemplate] *)

(** X3.  [CreateAgentTemplate] returns a descriptor.  Its [Hostname]
    and [OS] are what [os.Hostname] and [OSDump] returned, whether or not
    they also returned an error, and its access token is empty; the only
    line it can log is the error of a failed tag lookup, and it consults the
    tag service only when enrichment is enabled. *)
Theorem CreateAgentTemplate_host (r : t) (env : Env) :
  let env1 := if MetaDataEC2Tags r then (EC2Tags_Get env).2 else env in
  exists agent,
    outcome_of (CreateAgentTemplate r env) = Ret agent /\
    api.Hostname agent = (os_Hostname env1).1 /\
    api.OS agent = (OSDump env1).1.1 /\
    api.AccessToken agent = "" /\
    env_of (CreateAgentTemplate r env) = (OSDump env1).2 /\
    trace_of (CreateAgentTemplate r env) =
      (if MetaDataEC2Tags r then
         match (EC2Tags_Get env).1.2 with
         | Some e => [Log ERROR ("Failed to find EC2 Tags: " +:+ e) []]
         | None => []
         end
       else []).
Proof.
  unfold CreateAgentTemplate, logger_Error, bind, ask, call, emit, ret,
    outcome_of, env_of, trace_of.
  destruct (MetaDataEC2Tags r).
  - destruct (EC2Tags_Get env) as [[tags [e|]] env1]; cbn [fst snd];
      destruct (os_Hostname env1) as [hostname herr];
      destruct (OSDump env1) as [[os oerr] env2];
      rewrite ?fold_add_tag; cbn; eexists; repeat split.
  - destruct (os_Hostname env) as [hostname herr];
      destruct (OSDump env) as [[os oerr] env2]; cbn;
      eexists; repeat split.
Qed.

(** *** More about [ShowBanner] *)

(** X4.  [ShowBanner] returns and leaves the world as it is.  It prints the
    banner once, first, with the colour codes exactly when colours are
    enabled; it logs three notices, the configuration file exactly when its
    path is not empty, three debug lines and one more for each disabled
    feature, and nothing at warning level or above. *)
Theorem ShowBanner_output (r : t) (env : Env) :
  outcome_of (ShowBanner r env) = Ret tt /\
  env_of (ShowBanner r env) = env /\
  (exists rest,
     trace_of (ShowBanner r env) =
       Printed welcomeMessage
         (if logger_ColorsEnabled env
          then [esc +:+ "[32m"; esc +:+ "[0m"] else [""; ""]) :: rest /\
     count is_Printed rest = 0%nat) /\
  count (is_Log NOTICE) (trace_of (ShowBanner r env)) = 3%nat /\
  count (is_Log INFO) (trace_of (ShowBanner r env)) =
    (if String.eqb (ConfigFilePath r) "" then 0 else 1)%nat /\
  count (is_Log DEBUG) (trace_of (ShowBanner r env)) =
    (3 + disabled_features (AgentConfiguration r))%nat /\
  count (is_Log WARN) (trace_of (ShowBanner r env)) = 0%nat /\
  count (is_Log ERROR) (trace_of (ShowBanner r env)) = 0%nat /\
  count (is_Log FATAL) (trace_of (ShowBanner r env)) = 0%nat.
Proof.
  unfold ShowBanner, logger_Notice, logger_Info, logger_Debug,
    bind, ask, emit, ret, disabled_features.
  destruct (logger_ColorsEnabled env);
    destruct (String.eqb (ConfigFilePath r) "");
    destruct (AgentConfiguration.AutoSSHFingerprintVerification
                (AgentConfiguration r));
    destruct (AgentConfiguration.CommandEval (AgentConfiguration r));
    destruct (AgentConfiguration.RunInPty (AgentConfiguration r));
    cbn; repeat split; eexists; split; reflexivity.
Qed.

(** *** More about [Start] *)

Lemma ShowBanner_writes (r : t) (env : Env) :
  exists tb,
    ShowBanner r env = (Ret tt, env, tb) /\
    Forall (fun e => before_registering e = true) tb /\
    Forall (fun e => quiet e = true) tb.
Proof.
  unfold ShowBanner, logger_Notice, logger_Info, logger_Debug,
    bind, ask, emit, ret.
  destruct (logger_ColorsEnabled env);
    destruct (String.eqb (ConfigFilePath r) "");
    destruct (AgentConfiguration.AutoSSHFingerprintVerification
                (AgentConfiguration r));
    destruct (AgentConfiguration.CommandEval (AgentConfiguration r));
    destruct (AgentConfiguration.RunInPty (AgentConfiguration r));
    (eexists; split; [reflexivity | split; repeat constructor]).
Qed.

Lemma CreateAgentTemplate_writes (r : t) (env : Env) :
  exists agent env1 tr,
    CreateAgentTemplate r env = (Ret agent, env1, tr) /\
    Forall (fun e => before_registering e = true) tr /\
    Forall (fun e => quiet e = true) tr.
Proof.
  unfold CreateAgentTemplate, logger_Error, bind, ask, call, emit, ret.
  destruct (MetaDataEC2Tags r).
  - destruct (EC2Tags_Get env) as [[tags [e|]] env1];
      destruct (os_Hostname env1) as [hostname herr];
      destruct (OSDump env1) as [[os oerr] env2];
      (do 3 eexists; split; [reflexivity | split; repeat constructor]).
  - destruct (os_Hostname env) as [hostname herr];
      destruct (OSDump env) as [[os oerr] env2];
      (do 3 eexists; split; [reflexivity | split; repeat constructor]).
Qed.

(** [Start] up to the call of [RegisterAgent], and what it does with each
    result of that call. *)
Lemma Start_prefix (r : t) (env : Env) :
  exists tb template env1 tt1
         (K : option api.Agent * option error -> M Env event (option error)),
    CreateAgentTemplate (with_client r) env = (Ret template, env1, tt1) /\
    Forall (fun e => before_registering e = true) (tb ++ tt1 ++ [registering_log]) /\
    Forall (fun e => quiet e = true) (tb ++ tt1 ++ [registering_log]) /\
    Start r env =
      prepend (tb ++ tt1 ++ [registering_log])
        (bind (RegisterAgent (with_client r) template) K env1) /\
    (forall reg e env2,
       K (reg, Some e) env2 = (Exited fatal_status, env2, [fatal_log e])) /\
    (forall env2, K (None, None) env2 = (Panicked, env2, [])) /\
    (forall a env2,
       exists rest,
         trace_of (K (Some a, None) env2) =
           registered_log a :: connecting_log ::
           Connected
             (AgentWorker_Connect
                (AgentWorker_Create (new_worker r a) env2)).1 :: rest).
Proof.
  unfold Start. fold (with_client r).
  destruct (ShowBanner_writes r env) as (tb & Hb & Ob & Qb).
  rewrite (bind_Ret _ _ _ _ _ _ Hb).
  destruct (CreateAgentTemplate_writes (with_client r) env)
    as (template & env1 & tt1 & Ht & Ot & Qt).
  rewrite (bind_Ret _ _ _ _ _ _ Ht).
  unfold logger_Info at 1. rewrite bind_emit.
  rewrite (prepend_prepend tt1), (prepend_prepend tb).
  exists tb, template, env1, tt1. eexists.
  split; [exact Ht|]. split; [|split; [|split; [reflexivity|]]].
  - repeat (apply Forall_app; split); try assumption. repeat constructor.
  - repeat (apply Forall_app; split); try assumption. repeat constructor.
  - split; [|split].
    + intros reg e env2. unfold logger_Fatal, bind, emit, os_Exit. reflexivity.
    + intros env2. unfold bind, ret, deref, panic. reflexivity.
    + intros a env2.
      rewrite bind_ret. unfold deref. rewrite bind_ret.
      unfold logger_Info at 1. rewrite bind_emit.
      rewrite bind_call. cbn [fst snd].
      unfold logger_Info at 1. rewrite bind_emit.
      match goal with
      | |- context [bind worker_Connect ?k ?e] =>
          destruct (trace_bind worker_Connect k e) as (rest & Hrest)
      end.
      exists rest. unfold prepend, trace_of in *. cbn [fst snd] in *.
      rewrite Hrest. unfold worker_Connect, bind, call, emit, ret.
      destruct (AgentWorker_Connect _) as [err env3]. reflexivity.
Qed.

Lemma count_output (p : event -> bool) (t : list event) :
  (forall e, before_registering e = true -> p e = false) ->
  Forall (fun e => before_registering e = true) t -> count p t = 0%nat.
Proof. apply count_none. Qed.

Lemma RegisterAgent_rejected_run (r : t) agent client env env1 reg response e :
  APIClient r = Some client ->
  Agents_Register client agent env = ((reg, Some response, Some e), env1) ->
  api.StatusCode response = 401%Z ->
  RegisterAgent r agent env =
    (Ret (reg, Some e), env1,
     [Retry retry.Invoke; Registering agent; rejected_warning e]).
Proof.
  intros Hc Hreg Hcode. unfold RegisterAgent, retry.Do, bind, relabel.
  rewrite (loop_abort time_Sleep (register r agent) register_config
             _ _ _ env e _ _ env1 [Registering agent; rejected_warning e]
             (register_rejected r agent _ _ env client reg response e env1
                Hc Hreg Hcode) eq_refl).
  reflexivity.
Qed.

Lemma RegisterAgent_nil_response_run (r : t) agent client env env1 reg e :
  APIClient r = Some client ->
  Agents_Register client agent env = ((reg, None, Some e), env1) ->
  RegisterAgent r agent env =
    (Panicked, env1, [Retry retry.Invoke; Registering agent]).
Proof.
  intros Hc Hreg. unfold RegisterAgent, retry.Do, bind, relabel.
  rewrite (loop_panic time_Sleep (register r agent) register_config
             _ _ _ env env1 [Registering agent]
             (register_nil_response r agent _ _ env client reg e env1
                Hc Hreg)).
  reflexivity.
Qed.

(** What [Start] makes of the registration step. *)
Lemma Start_at_registration (r : t) (env : Env) :
  exists t0 env2 tr
         (K : option api.Agent * option error -> M Env event (option error)),
    Forall (fun e => before_registering e = true) t0 /\
    Forall (fun e => quiet e = true) (t0 ++ tr) /\
    (forall code, outcome_of (registration r env) <> Exited code) /\
    env_of (registration r env) = env2 /\
    trace_of (registration r env) = tr /\
    Start r env =
      match outcome_of (registration r env) with
      | Ret result => prepend (t0 ++ tr) (K result env2)
      | _ => (Panicked, env2, t0 ++ tr)
      end /\
    (forall reg e env3,
       K (reg, Some e) env3 = (Exited fatal_status, env3, [fatal_log e])) /\
    (forall env3, K (None, None) env3 = (Panicked, env3, [])) /\
    (forall a env3,
       exists rest,
         trace_of (K (Some a, None) env3) =
           registered_log a :: connecting_log ::
           Connected
             (AgentWorker_Connect
                (AgentWorker_Create (new_worker r a) env3)).1 :: rest).
Proof.
  destruct (Start_prefix r env)
    as (tb & template & env1 & tt1 & K & Ht & Ob & Qb & HS & Kfail & Knil & Kok).
  destruct (RegisterAgent_run (with_client r) template env1)
    as (o & env2 & tr & Hr & Qr & Hne).
  exists (tb ++ tt1 ++ [registering_log]), env2, tr, K.
  unfold registration. rewrite Ht, Hr.
  unfold outcome_of, env_of, trace_of. cbn [fst snd].
  split; [exact Ob|]. split; [apply Forall_app; split; assumption|].
  split; [exact Hne|]. split; [reflexivity|]. split; [reflexivity|].
  split; [|split; [exact Kfail | split; [exact Knil | exact Kok]]].
  rewrite HS. destruct o as [result|code|].
  - rewrite (bind_Ret _ _ _ _ _ _ Hr), prepend_prepend. reflexivity.
  - exfalso. exact (Hne code eq_refl).
  - rewrite (bind_Panicked _ _ _ _ _ Hr). reflexivity.
Qed.

(** X5.  When [RegisterAgent] returns an error, [Start] logs it as the one
    fatal line, which ends the run: the process exits with the fatal status
    and no call is made on the worker or the watcher. *)
Theorem Start_registration_failure (r : t) (env : Env) reg (e : error) :
  outcome_of (registration r env) = Ret (reg, Some e) ->
  outcome_of (Start r env) = Exited fatal_status /\
  env_of (Start r env) = env_of (registration r env) /\
  calls (trace_of (Start r env)) = [] /\
  exists t0,
    trace_of (Start r env) = t0 ++ [fatal_log e] /\
    count (is_Log FATAL) t0 = 0%nat.
Proof.
  intros Hreg.
  destruct (Start_at_registration r env)
    as (t0 & env2 & tr & K & Ob & Qb & _ & Henv & _ & HS & Kfail & _ & _).
  rewrite HS, Hreg, Kfail, Henv.
  unfold prepend, outcome_of, env_of, trace_of. cbn [fst snd].
  repeat split.
  - rewrite calls_app, (calls_quiet _ Qb). reflexivity.
  - exists (t0 ++ tr). split; [reflexivity | apply count_FATAL_quiet, Qb].
Qed.

(** X6.  When [RegisterAgent] returns neither an agent nor an error, [Start]
    panics on the nil agent: nothing fatal is logged and no call is made on
    the worker or the watcher. *)
Theorem Start_nil_agent (r : t) (env : Env) :
  outcome_of (registration r env) = Ret (None, None) ->
  outcome_of (Start r env) = Panicked /\
  calls (trace_of (Start r env)) = [] /\
  count (is_Log FATAL) (trace_of (Start r env)) = 0%nat.
Proof.
  intros Hreg.
  destruct (Start_at_registration r env)
    as (t0 & env2 & tr & K & Ob & Qb & _ & Henv & _ & HS & _ & Knil & _).
  rewrite HS, Hreg, Knil.
  unfold prepend, outcome_of, env_of, trace_of. cbn [fst snd].
  rewrite app_nil_r. repeat split.
  - apply calls_quiet, Qb.
  - apply count_FATAL_quiet, Qb.
Qed.

(** X7.  When [RegisterAgent] returns an agent and no error, [Start] logs
    its name and metadata, builds the worker from it with the pool's
    configuration and endpoint, and calls [Connect] on that worker as the
    first call on it. *)
Theorem Start_creates_worker (r : t) (env : Env) (a : api.Agent) :
  outcome_of (registration r env) = Ret (Some a, None) ->
  exists t0 rest,
    trace_of (Start r env) =
      t0 ++ registered_log a :: connecting_log ::
      Connected
        (AgentWorker_Connect
           (AgentWorker_Create (new_worker r a)
              (env_of (registration r env)))).1 :: rest /\
    calls t0 = [] /\
    count (is_Log FATAL) t0 = 0%nat.
Proof.
  intros Hreg.
  destruct (Start_at_registration r env)
    as (t0 & env2 & tr & K & Ob & Qb & _ & Henv & _ & HS & _ & _ & Kok).
  destruct (Kok a env2) as (rest & Hrest).
  exists (t0 ++ tr), rest.
  rewrite HS, Hreg, Henv.
  unfold prepend, trace_of in *. cbn [fst snd] in *. rewrite Hrest.
  repeat split.
  - apply calls_quiet, Qb.
  - apply count_FATAL_quiet, Qb.
Qed.

(** X8.  When the first answer of the registration service is an error with
    status code 401, [Start] calls the service once, without a sleep, logs
    the warning and then the fatal line, and exits with the fatal status;
    no call is made on the worker or the watcher. *)
Theorem Start_rejected (r : t) (env env1 env2 : Env) template tt1
    reg response (e : error) :
  CreateAgentTemplate r env = (Ret template, env1, tt1) ->
  Agents_Register (APIClient_Create (Endpoint r) (Token r)) template env1 =
    ((reg, Some response, Some e), env2) ->
  api.StatusCode response = 401%Z ->
  outcome_of (Start r env) = Exited fatal_status /\
  count is_Register (trace_of (Start r env)) = 1%nat /\
  count is_Sleep (trace_of (Start r env)) = 0%nat /\
  calls (trace_of (Start r env)) = [] /\
  exists t0,
    trace_of (Start r env) =
      t0 ++ [Registering template; rejected_warning e; fatal_log e].
Proof.
  intros Ht Hreg Hcode.
  destruct (Start_prefix r env)
    as (tb & template' & env1' & tt1' & K & Ht' & Ob & Qb & HS & Kfail & _).
  unfold with_client in Ht'.
  rewrite CreateAgentTemplate_with_APIClient, Ht in Ht'.
  injection Ht' as <- <- <-.
  pose proof (RegisterAgent_rejected_run (with_client r) template _ env1 env2
                reg response e eq_refl Hreg Hcode) as Hrun.
  rewrite HS, (bind_Ret _ _ _ _ _ _ Hrun), Kfail.
  unfold prepend, outcome_of, env_of, trace_of. cbn [fst snd].
  split; [reflexivity|]. split; [|split; [|split]].
  - rewrite count_app, (count_output is_Register _) by
      (try exact Ob; intros [] ?; try discriminate; reflexivity).
    reflexivity.
  - rewrite count_app, (count_output is_Sleep _) by
      (try exact Ob; intros [] ?; try discriminate; reflexivity).
    reflexivity.
  - rewrite calls_app, (calls_quiet _ Qb). reflexivity.
  - exists ((tb ++ tt1 ++ [registering_log]) ++ [Retry retry.Invoke]).
    rewrite <- !app_assoc. reflexivity.
Qed.

(** X9.  When the first answer of the registration service is an error with
    no response, [Start] panics right after that call: it does not retry,
    logs neither a warning nor a fatal line, and makes no call on the
    worker or the watcher. *)
Theorem Start_transport_failure (r : t) (env env1 env2 : Env) template tt1
    reg (e : error) :
  CreateAgentTemplate r env = (Ret template, env1, tt1) ->
  Agents_Register (APIClient_Create (Endpoint r) (Token r)) template env1 =
    ((reg, None, Some e), env2) ->
  outcome_of (Start r env) = Panicked /\
  count is_Register (trace_of (Start r env)) = 1%nat /\
  count (is_Log WARN) (trace_of (Start r env)) = 0%nat /\
  count (is_Log FATAL) (trace_of (Start r env)) = 0%nat /\
  calls (trace_of (Start r env)) = [] /\
  exists t0, trace_of (Start r env) = t0 ++ [Registering template].
Proof.
  intros Ht Hreg.
  destruct (Start_prefix r env)
    as (tb & template' & env1' & tt1' & K & Ht' & Ob & Qb & HS & _).
  unfold with_client in Ht'.
  rewrite CreateAgentTemplate_with_APIClient, Ht in Ht'.
  injection Ht' as <- <- <-.
  pose proof (RegisterAgent_nil_response_run (with_client r) template _ env1
                env2 reg e eq_refl Hreg) as Hrun.
  rewrite HS, (bind_Panicked _ _ _ _ _ Hrun).
  unfold prepend, outcome_of, env_of, trace_of. cbn [fst snd].
  split; [reflexivity|]. split; [|split; [|split; [|split]]].
  - rewrite count_app, (count_output is_Register _) by
      (try exact Ob; intros [] ?; try discriminate; reflexivity).
    reflexivity.
  - rewrite count_app, (count_output (is_Log WARN) _) by
      (try exact Ob; intros [| [] | | | | | | | |] ?;
       try discriminate; reflexivity).
    reflexivity.
  - rewrite count_app, (count_FATAL_quiet _ Qb). reflexivity.
  - rewrite calls_app, (calls_quiet _ Qb). reflexivity.
  - exists ((tb ++ tt1 ++ [registering_log]) ++ [Retry retry.Invoke]).
    rewrite <- !app_assoc. reflexivity.
Qed.

(** X10.  In every run of [Start] the calls on the worker and the watcher
    follow the lifecycle: none; or a failed [Connect] alone; or a successful
    [Connect], the watcher, the call of the worker's [Start] and its
    return, followed by [Disconnect] exactly when it returned nil.  The
    [Stop] calls of the signal callback can come at any point once the
    watcher is armed, and nowhere else. *)
Theorem Start_lifecycle_order (r : t) (env : Env) :
  calls (trace_of (Start r env)) = [] \/
  (exists e, calls (trace_of (Start r env)) = [Connected (Some e)]) \/
  (exists n0 n1 n2 e,
     calls (trace_of (Start r env)) =
       Connected None :: Watch :: repeat Stop n0 ++
       StartCalled :: repeat Stop n1 ++
       StartReturned (Some e) :: repeat Stop n2) \/
  (exists n0 n1 n2 n3,
     calls (trace_of (Start r env)) =
       Connected None :: Watch :: repeat Stop n0 ++
       StartCalled :: repeat Stop n1 ++
       StartReturned None :: repeat Stop n2 ++
       Disconnect :: repeat Stop n3).
Proof.
  destruct (Start_ends r env)
    as ([|e|n0 n1 n2 e|n0 n1 n2 n3] & Hcalls & _).
  - left. exact Hcalls.
  - right. left. exists e. exact Hcalls.
  - right. right. left. exists n0, n1, n2, e. exact Hcalls.
  - right. right. right. exists n0, n1, n2, n3. exact Hcalls.
Qed.

(** X11.  A run of [Start] logs at most one fatal line: either none, or
    exactly one, which is its last event and is followed by the exit with
    the fatal status. *)
Theorem Start_fatal_once (r : t) (env : Env) :
  count (is_Log FATAL) (trace_of (Start r env)) = 0%nat \/
  exists t0 e,
    trace_of (Start r env) = t0 ++ [fatal_log e] /\
    count (is_Log FATAL) t0 = 0%nat /\
    outcome_of (Start r env) = Exited fatal_status.
Proof.
  destruct (Start_complete r env) as [env1 t0 Hq|env1 t0 e Hq|t0 x Hq Hw].
  - left. apply count_FATAL_quiet, Hq.
  - right. exists t0, e. repeat split. apply count_FATAL_quiet, Hq.
  - destruct Hw as [env1 e|env1 s0 s1 s2 e Hcb0 Hcb1 Hcb2
                   |env1 s0 s1 s2 s3 s4 name Hcb0 Hcb1 Hcb2 Hcb3 Hcb4];
      unfold prepend, outcome_of, env_of, trace_of; cbn [fst snd].
    + right. exists (t0 ++ [Connected (Some e)]), e.
      rewrite <- app_assoc. repeat split.
      rewrite count_app, (count_FATAL_quiet t0 Hq). reflexivity.
    + right. exists (t0 ++ running s0 s1 (Some e) ++ s2), e.
      rewrite <- !app_assoc. repeat split.
      rewrite !count_app, (count_FATAL_quiet t0 Hq),
        (count_FATAL_running s0 s1 _ Hcb0 Hcb1),
        (count_FATAL_of_callback s2 Hcb2). reflexivity.
    + left.
      change (disconnecting_log name :: s3 ++ Disconnect :: s4)
        with ([disconnecting_log name] ++ s3 ++ [Disconnect] ++ s4).
      rewrite !count_app, (count_FATAL_quiet t0 Hq),
        (count_FATAL_running s0 s1 _ Hcb0 Hcb1),
        (count_FATAL_of_callback s2 Hcb2), (count_FATAL_of_callback s3 Hcb3),
        (count_FATAL_of_callback s4 Hcb4). reflexivity.
Qed.

(** X12.  With a configuration set, every run of [Start] calls the
    registration service, with the descriptor that [CreateAgentTemplate]
    built; before that first call there is no call on the worker or the
    watcher, no fatal line and no warning. *)
Theorem Start_registers_first (r : t) (env : Env) :
  exists agent t0 rest,
    outcome_of (CreateAgentTemplate r env) = Ret agent /\
    trace_of (Start r env) = t0 ++ Registering agent :: rest /\
    count is_Register t0 = 0%nat /\
    calls t0 = [] /\
    count (is_Log FATAL) t0 = 0%nat /\
    count (is_Log WARN) t0 = 0%nat.
Proof.
  destruct (Start_prefix r env)
    as (tb & template & env1 & tt1 & K & Ht & Ob & Qb & HS & _).
  destruct (trace_bind (RegisterAgent (with_client r) template) K env1)
    as (rest1 & Hb1).
  destruct (RegisterAgent_begins (with_client r) template env1 _ eq_refl)
    as (rest & Hfirst).
  exists template, ((tb ++ tt1 ++ [registering_log]) ++ [Retry retry.Invoke]),
    (rest ++ rest1).
  split; [|split; [|split; [|split; [|split]]]].
  - unfold with_client in Ht.
    rewrite CreateAgentTemplate_with_APIClient in Ht. rewrite Ht. reflexivity.
  - rewrite HS. unfold prepend, trace_of in *. cbn [fst snd] in *.
    rewrite Hb1, Hfirst, <- !app_assoc. reflexivity.
  - rewrite count_app, (count_output is_Register _) by
      (try exact Ob; intros [] ?; try discriminate; reflexivity).
    reflexivity.
  - rewrite calls_app, (calls_quiet _ Qb). reflexivity.
  - rewrite count_app, (count_FATAL_quiet _ Qb). reflexivity.
  - rewrite count_app, (count_output (is_Log WARN) _) by
      (try exact Ob; intros [| [] | | | | | | | |] ?;
       try discriminate; reflexivity).
    reflexivity.
Qed.

(** *** More about [RegisterAgent] *)

(** X13.  With the API client set, the closure [register] makes exactly one
    call of the service and never terminates the process.  When it returns,
    it returns the error of that call, has stored the three results of the
    call, and has set the break flag exactly when the call returned an
    error together with a response of status code 401. *)
Theorem register_outcome (r : t) agent (s : retry.Stats) (c : captured)
    (env : Env) client :
  APIClient r = Some client ->
  count is_Register (trace_of (register r agent s c env)) = 1%nat /\
  env_of (register r agent s c env) = (Agents_Register client agent env).2 /\
  (forall code, outcome_of (register r agent s c env) <> Exited code) /\
  forall err1 s1 c1,
    outcome_of (register r agent s c env) = Ret (err1, s1, c1) ->
    (registered c1, resp c1, err c1) = (Agents_Register client agent env).1 /\
    err1 = err c1 /\
    retry.Attempt s1 = retry.Attempt s /\
    retry.StatsConfig s1 = retry.StatsConfig s /\
    retry.breakNext s1 = (rejects (err c1) (resp c1) || retry.breakNext s).
Proof.
  intros Hc.
  unfold register, logger_Warn, bind, deref, emit, call, ret, panic,
    outcome_of, env_of, trace_of, rejects.
  rewrite Hc. cbn.
  destruct (Agents_Register client agent env)
    as [[[reg [response|]] [e|]] env1]; cbn;
    try destruct (api.StatusCode response =? 401)%Z eqn:Hcode; cbn;
    (split; [reflexivity|]; split; [reflexivity|];
     split; [discriminate|]; intros err1 s1 c1 [= <- <- <-]; cbn;
     rewrite ?Hcode; repeat split).
Qed.

(** X14.  Without an API client the closure panics before it calls the
    service, and so does [RegisterAgent]: the service is never called. *)
Theorem register_nil_client (r : t) agent (s : retry.Stats) (c : captured)
    (env : Env) :
  APIClient r = None ->
  register r agent s c env = (Panicked, env, []) /\
  RegisterAgent r agent env = (Panicked, env, [Retry retry.Invoke]) /\
  count is_Register (trace_of (RegisterAgent r agent env)) = 0%nat.
Proof.
  intros Hc.
  assert (Hreg : forall s c, register r agent s c env = (Panicked, env, [])).
  { intros s0 c0. unfold register, bind, deref, panic. rewrite Hc. reflexivity. }
  assert (Hrun : RegisterAgent r agent env =
                 (Panicked, env, [Retry retry.Invoke])).
  { unfold RegisterAgent, retry.Do, bind, relabel.
    rewrite (loop_panic time_Sleep (register r agent) register_config
               _ _ _ env env [] (Hreg _ _)).
    reflexivity. }
  split; [apply Hreg|]. split; [exact Hrun|]. rewrite Hrun. reflexivity.
Qed.

(** X15.  When the first call of the service returns no error,
    [RegisterAgent] returns what the call returned, nil agent included,
    after that one call: no sleep, no log line, and no look at the
    response, which may be nil. *)
Theorem RegisterAgent_accepted (r : t) agent client (env env1 : Env)
    reg response :
  APIClient r = Some client ->
  Agents_Register client agent env = ((reg, response, None), env1) ->
  RegisterAgent r agent env =
    (Ret (reg, None), env1, [Retry retry.Invoke; Registering agent]).
Proof.
  intros Hc Hreg. unfold RegisterAgent, retry.Do, bind, relabel.
  rewrite (loop_success time_Sleep (register r agent) register_config
             _ _ _ env _ _ env1 [Registering agent]
             (register_ok r agent _ _ env client reg response env1 Hc Hreg)).
  reflexivity.
Qed.

Lemma register_events (r : t) agent s c env :
  Forall (fun e => of_registration agent e)
    (trace_of (register r agent s c env)).
Proof.
  unfold register, logger_Warn, bind, deref, emit, call, ret, panic, trace_of.
  destruct (APIClient r) as [client|]; cbn; [|constructor].
  destruct (Agents_Register client agent env)
    as [[[reg [response|]] [e|]] env1]; cbn;
    try destruct (api.StatusCode response =? 401)%Z; cbn;
    repeat match goal with
           | |- Forall _ _ => constructor
           end;
    unfold of_registration; eauto 8.
Qed.

Lemma register_counts (r : t) agent s c env :
  count is_Register (trace_of (register r agent s c env)) =
    match APIClient r with Some _ => 1%nat | None => 0%nat end /\
  count is_Sleep (trace_of (register r agent s c env)) = 0%nat.
Proof.
  unfold register, logger_Warn, bind, deref, emit, call, ret, panic, trace_of.
  destruct (APIClient r) as [client|]; cbn; [|split; reflexivity].
  destruct (Agents_Register client agent env)
    as [[[reg [response|]] [e|]] env1]; cbn;
    try destruct (api.StatusCode response =? 401)%Z; cbn;
    split; reflexivity.
Qed.

Lemma RegisterAgent_trace (r : t) agent env :
  trace_of (RegisterAgent r agent env) =
    map of_retry
      (trace_of (retry.Do time_Sleep (register r agent) register_config
                   {| registered := None; resp := None; err := None |} env)).
Proof.
  unfold RegisterAgent, bind, relabel, ret, trace_of.
  destruct (retry.Do _ _ _ _ _) as [[[[e c]|code|] env1] tr]; cbn;
    rewrite ?app_nil_r; reflexivity.
Qed.

Lemma count_of_retry (p : event -> bool) (tr : list (retry.event + event)) :
  count p (map of_retry tr) =
    (count (fun e => p (Retry e)) (retry.engine tr) +
     count (retry.of_operation p) tr)%nat.
Proof.
  unfold count, retry.engine.
  induction tr as [|[e|e] tr IH]; [reflexivity| |]; cbn.
  - destruct (p (Retry e)); cbn; rewrite IH; reflexivity.
  - destruct (p e); cbn; rewrite IH; lia.
Qed.

Lemma count_sleeps_schedule (n : nat) (d : Z) :
  count (fun e => is_Sleep (Retry e)) (retry.schedule n d) = (n - 1)%nat /\
  count (fun e => is_Register (Retry e)) (retry.schedule n d) = 0%nat.
Proof.
  induction n as [|[|n] IH]; try (split; reflexivity).
  rewrite schedule_step. unfold count in *. cbn in *. lia.
Qed.

(** X16.  [RegisterAgent] never terminates the process, whatever the service
    answers and however many attempts it takes.  Its events are invocations
    and one-second sleeps of the retry engine, calls of the service, each
    with the descriptor it was given, and warnings; it makes no call on the
    worker or the watcher. *)
Theorem RegisterAgent_never_exits (r : t) (agent : api.Agent) (env : Env) :
  (forall code, outcome_of (RegisterAgent r agent env) <> Exited code) /\
  Forall (fun e => of_registration agent e)
    (trace_of (RegisterAgent r agent env)) /\
  calls (trace_of (RegisterAgent r agent env)) = [] /\
  count (is_Log FATAL) (trace_of (RegisterAgent r agent env)) = 0%nat.
Proof.
  destruct (RegisterAgent_run r agent env) as (o & env1 & tr & Hr & Qr & Hne).
  split; [rewrite Hr; exact Hne|]. split; [|split].
  - rewrite RegisterAgent_trace. apply Forall_map.
    apply (loop_trace_Forall time_Sleep (register r agent) register_config
             (fun x => of_registration agent (of_retry x))).
    + left. reflexivity.
    + right. left. reflexivity.
    + apply register_events.
  - rewrite Hr. apply calls_quiet, Qr.
  - rewrite Hr. apply count_FATAL_quiet, Qr.
Qed.

(** X17.  With the API client set, and the retry engine as the spec describes
    it, [RegisterAgent] calls the service at least once and at most thirty
    times, and sleeps exactly once between two consecutive calls. *)
Theorem RegisterAgent_bounded (r : t) (agent : api.Agent) (env : Env) client :
  APIClient r = Some client ->
  exists n,
    (1 <= n <= 30)%nat /\
    count is_Register (trace_of (RegisterAgent r agent env)) = n /\
    count is_Sleep (trace_of (RegisterAgent r agent env)) = (n - 1)%nat.
Proof.
  intros Hc. rewrite RegisterAgent_trace. unfold retry.Do.
  destruct (loop_attempts time_Sleep (register r agent) register_config
              is_Register 1
              (fun s c env => eq_trans (proj1 (register_counts r agent s c env))
                                (f_equal (fun o : option Client =>
                                            match o with
                                            | Some _ => 1%nat
                                            | None => 0%nat
                                            end) Hc))
              (Z.to_nat (retry.Maximum register_config - 1))
              {| retry.Attempt := 1; retry.StatsConfig := register_config;
                 retry.breakNext := false |}
              {| registered := None; resp := None; err := None |} env)
    as (n & Hn & Heng & Hcalls).
  destruct (loop_attempts time_Sleep (register r agent) register_config
              is_Sleep 0
              (fun s c env => proj2 (register_counts r agent s c env))
              (Z.to_nat (retry.Maximum register_config - 1))
              {| retry.Attempt := 1; retry.StatsConfig := register_config;
                 retry.breakNext := false |}
              {| registered := None; resp := None; err := None |} env)
    as (n' & _ & _ & Hsleeps).
  exists n. split; [exact Hn|].
  rewrite !count_of_retry, Heng, Hcalls, Hsleeps.
  destruct (count_sleeps_schedule n (retry.Interval register_config))
    as [-> ->].
  lia.
Qed.

End AgentPoolFacts.

(** ** The theorems on scripted worlds *)

#[export] Existing Instance world_Host.
#[export] Existing Instance world_RegistrationService.
#[export] Existing Instance world_WorkerLifecycle.
#[export] Existing Instance world_SignalWatcher.

(** Membership of an event in a computed trace. *)
Ltac find_event := vm_compute; repeat (try (left; reflexivity); right).

(** The calls on the worker in a run that finishes, and what the worker has
    seen of them. *)
Example good_world_calls :
  calls (trace_of (AgentPool.Start (pool false true) good_world)) =
    [Connected None; Watch; StartCalled; Stop; StartReturned None; Disconnect] /\
  outcome_of (AgentPool.Start (pool false true) good_world) = Exited 7 /\
  stops (env_of (AgentPool.Start (pool false true) good_world)) = 1%nat /\
  disconnects (env_of (AgentPool.Start (pool false true) good_world)) = 1%nat.
Proof. vm_compute. repeat split; reflexivity. Qed.

(** The same with signals before the worker runs and during the teardown. *)
Example late_signals_world_calls :
  calls (trace_of (AgentPool.Start (pool false true) late_signals_world)) =
    [Connected None; Watch; Stop; StartCalled; StartReturned None;
     Disconnect; Stop; Stop] /\
  outcome_of (AgentPool.Start (pool false true) late_signals_world) =
    Exited 7 /\
  stops (env_of (AgentPool.Start (pool false true) late_signals_world)) =
    3%nat /\
  disconnects (env_of (AgentPool.Start (pool false true) late_signals_world)) =
    1%nat.
Proof. vm_compute. repeat split; reflexivity. Qed.

(** Thirty failing calls on a service that stays unavailable; three calls on
    one that answers the third. *)
Lemma Do_attempts_witness :
  retry.engine
    (trace_of (retry.Do time_Sleep
                 (AgentPool.register (ready_pool false) registered_agent)
                 AgentPool.register_config nothing_captured unavailable_world)) =
    retry.schedule 30 (1 * time_Second) /\
  retry.engine
    (trace_of (retry.Do time_Sleep
                 (AgentPool.register (ready_pool false) registered_agent)
                 AgentPool.register_config nothing_captured recovering_world)) =
    retry.schedule 3 (1 * time_Second).
Proof.
  split.
  - pose proof (Do_attempts time_Sleep
                  (AgentPool.register (ready_pool false) registered_agent)
                  AgentPool.register_config 30 nothing_captured
                  unavailable_world eq_refl ltac:(lia)) as [Hall _].
    apply Hall. intros i Hi.
    do 30 (destruct i as [|i]; [vm_compute; reflexivity|]). lia.
  - pose proof (Do_attempts time_Sleep
                  (AgentPool.register (ready_pool false) registered_agent)
                  AgentPool.register_config 30 nothing_captured
                  recovering_world eq_refl ltac:(lia)) as [_ Hk].
    apply (Hk 3%nat); [lia| |vm_compute; reflexivity].
    intros i Hi. destruct i as [|[|i]]; [vm_compute; reflexivity ..|lia].
Defined.

(** A run that finishes disconnects once, also when signals arrive during
    the teardown; a run whose worker fails while running ends in the fatal
    exit. *)
Lemma Start_Disconnect_witness :
  (In (StartReturned None)
      (trace_of (AgentPool.Start (pool false true) good_world)) /\
   count is_Disconnect
     (trace_of (AgentPool.Start (pool false true) good_world)) = 1%nat /\
   disconnects (env_of (AgentPool.Start (pool false true) good_world)) =
     1%nat) /\
  (In (StartReturned None)
      (trace_of (AgentPool.Start (pool false true) late_signals_world)) /\
   count is_Disconnect
     (trace_of (AgentPool.Start (pool false true) late_signals_world)) =
     1%nat /\
   disconnects
     (env_of (AgentPool.Start (pool false true) late_signals_world)) =
     1%nat) /\
  (In (StartReturned (Some "run failed"))
      (trace_of (AgentPool.Start (pool false true) failing_run_world)) /\
   outcome_of (AgentPool.Start (pool false true) failing_run_world) =
     Exited 1).
Proof.
  assert (Hgood : In (StartReturned None)
            (trace_of (AgentPool.Start (pool false true) good_world)))
    by find_event.
  assert (Hlate : In (StartReturned None)
            (trace_of (AgentPool.Start (pool false true) late_signals_world)))
    by find_event.
  assert (Hbad : In (StartReturned (Some "run failed"))
            (trace_of (AgentPool.Start (pool false true) failing_run_world)))
    by find_event.
  split; [|split]; (split; [assumption|]).
  - split; [exact (proj1 (Start_Disconnect _ _ _ Hgood)) | reflexivity].
  - split; [exact (proj1 (Start_Disconnect _ _ _ Hlate)) | reflexivity].
  - exact (proj2 (Start_Disconnect _ _ _ Hbad)).
Defined.

(** The run in which the worker's [Start] returns an error: the call
    returned, and [Disconnect] was not invoked. *)
Lemma Start_error_skips_Disconnect :
  In (StartReturned (Some "run failed"))
     (trace_of (AgentPool.Start (pool false false) failing_run_world)) /\
  count is_Disconnect
    (trace_of (AgentPool.Start (pool false false) failing_run_world)) <> 1%nat /\
  count is_Disconnect
    (trace_of (AgentPool.Start (pool false false) failing_run_world)) = 0%nat /\
  disconnects
    (env_of (AgentPool.Start (pool false false) failing_run_world)) = 0%nat /\
  outcome_of (AgentPool.Start (pool false false) failing_run_world) = Exited 1.
Proof.
  split; [find_event|]. vm_compute. repeat split. discriminate.
Qed.

(** The callback on a quit signal and on a hang-up; three signals in a row;
    and a hang-up and a quit signal while the worker's [Start] is
    blocked. *)
Lemma onSignal_Stop_witness :
  stops (env_of (AgentPool.onSignal 3%Z good_world)) = 1%nat /\
  stops (env_of (AgentPool.onSignal 1%Z good_world)) = 0%nat /\
  stops (env_of (AgentPool.deliver [3%Z; 1%Z; 3%Z] good_world)) = 2%nat /\
  stops (env_of (AgentPool.worker_Start
                   (with_signals [[1%Z; 3%Z]] good_world))) = 1%nat.
Proof.
  destruct (@onSignal_Stop world world_WorkerLifecycle world_SignalWatcher 3%Z good_world)
    as (_ & _ & Hquit & _ & Hsigs & _).
  destruct (@onSignal_Stop world world_WorkerLifecycle world_SignalWatcher 1%Z good_world) as (_ & _ & _ & Hother & _).
  destruct (@onSignal_Stop world world_WorkerLifecycle world_SignalWatcher 3%Z (with_signals [[1%Z; 3%Z]] good_world))
    as (_ & _ & _ & _ & _ & s1 & Hstart & _).
  split; [rewrite (Hquit eq_refl); reflexivity|].
  split; [rewrite (Hother ltac:(discriminate)); reflexivity|].
  split; [rewrite (proj1 (proj2 (Hsigs [3%Z; 1%Z; 3%Z]))); reflexivity|].
  rewrite Hstart. reflexivity.
Defined.

(** A run whose worker cannot connect makes no other call on it. *)
Lemma Start_Connect_failed_witness :
  In (Connected (Some "connect failed"))
     (trace_of (AgentPool.Start (pool false false) failing_connect_world)) /\
  calls (trace_of (AgentPool.Start (pool false false) failing_connect_world)) =
    [Connected (Some "connect failed")].
Proof.
  assert (Hin : In (Connected (Some "connect failed"))
            (trace_of (AgentPool.Start (pool false false) failing_connect_world)))
    by find_event.
  split; [exact Hin|].
  apply (Start_Connect_failed _ _ _ Hin).
Defined.

(** A run that finishes with exit status 7 and propagates it. *)
Lemma Start_exit_status_witness :
  In (StartReturned None)
     (trace_of (AgentPool.Start (pool false true) good_world)) /\
  In Disconnect (trace_of (AgentPool.Start (pool false true) good_world)) /\
  outcome_of (AgentPool.Start (pool false true) good_world) = Exited 7.
Proof.
  assert (Hret : In (StartReturned None)
            (trace_of (AgentPool.Start (pool false true) good_world)))
    by find_event.
  assert (Hdis : In Disconnect
            (trace_of (AgentPool.Start (pool false true) good_world)))
    by find_event.
  split; [exact Hret|]. split; [exact Hdis|].
  exact (Start_exit_status _ _ _ Hret Hdis).
Defined.

(** A run that finishes and does not propagate the exit status. *)
Lemma Start_returns_nil_witness :
  outcome_of (AgentPool.Start (pool false false) good_world) = Ret None /\
  count (is_Log FATAL)
    (trace_of (AgentPool.Start (pool false false) good_world)) = 0%nat.
Proof.
  assert (Hret : outcome_of (AgentPool.Start (pool false false) good_world) =
                 Ret None) by (vm_compute; reflexivity).
  split; [exact Hret|].
  apply (proj1 (Start_returns_nil (pool false false) good_world)
           None Hret).
Defined.

(** A service that rejects the token is called once. *)
Lemma RegisterAgent_rejected_witness :
  AgentPool.APIClient (ready_pool false) = Some client /\
  count is_Register
    (trace_of (AgentPool.RegisterAgent (ready_pool false) registered_agent
                 rejecting_world)) = 1%nat /\
  count is_Sleep
    (trace_of (AgentPool.RegisterAgent (ready_pool false) registered_agent
                 rejecting_world)) = 0%nat.
Proof.
  destruct (RegisterAgent_rejected (ready_pool false)
              registered_agent client rejecting_world
              (next_reply rejecting_world).2 None
              {| api.StatusCode := 401 |} "unauthorized"
              eq_refl eq_refl eq_refl) as (_ & _ & Hcalls & _ & Hsleeps).
  split; [reflexivity|]. split; [exact Hcalls | exact Hsleeps].
Defined.

(** A transport failure: an error with no response. *)
Lemma register_nil_dereference_witness :
  outcome_of (AgentPool.register (ready_pool false) registered_agent
                {| retry.Attempt := 1;
                   retry.StatsConfig := AgentPool.register_config;
                   retry.breakNext := false |}
                nothing_captured unreachable_world) = Panicked /\
  outcome_of (AgentPool.RegisterAgent (ready_pool false) registered_agent
                unreachable_world) = Panicked.
Proof.
  destruct (register_nil_dereference (ready_pool false)
              registered_agent client
              {| retry.Attempt := 1;
                 retry.StatsConfig := AgentPool.register_config;
                 retry.breakNext := false |}
              nothing_captured unreachable_world
              (next_reply unreachable_world).2 None None "connection refused"
              eq_refl eq_refl) as (Hiff & Hpanic).
  split; [apply Hiff; reflexivity | apply Hpanic; reflexivity].
Defined.

(** A host without a metadata service. *)
Lemma CreateAgentTemplate_lookup_failure_witness :
  AgentPool.MetaDataEC2Tags (pool true false) = true /\
  exists agent,
    outcome_of (AgentPool.CreateAgentTemplate (pool true false) no_tags_world) =
      Ret agent /\
    api.MetaData agent = ["queue=default"].
Proof.
  assert (Hget : EC2Tags_Get no_tags_world =
                 ((tags_reply no_tags_world).1, Some "no metadata service",
                  no_tags_world)) by reflexivity.
  destruct (CreateAgentTemplate_lookup_failure (pool true false)
              no_tags_world no_tags_world (tags_reply no_tags_world).1
              "no metadata service" eq_refl Hget)
    as (agent & Hout & _ & Hmeta & _).
  split; [reflexivity|]. exists agent. split; [exact Hout | exact Hmeta].
Defined.

(** *** The further theorems on scripted worlds *)

(** The tag [role] with the value [ci]. *)
Lemma Sprintf_tag_injective_witness :
  has_equals "role" = false /\
  Sprintf_tag "role" "ci" = "role=ci" /\
  ("role" = "role" /\ "ci" = "ci").
Proof.
  split; [reflexivity|]. split; [reflexivity|].
  exact (Sprintf_tag_injective "role" "role" "ci" "ci"
           eq_refl eq_refl eq_refl).
Defined.

(** A service that rejects the token: the registration fails. *)
Lemma Start_registration_failure_witness :
  outcome_of (AgentPool.registration (pool false false) rejecting_world) =
    Ret (None, Some "unauthorized") /\
  outcome_of (AgentPool.Start (pool false false) rejecting_world) = Exited 1.
Proof.
  assert (Hreg : outcome_of (AgentPool.registration (pool false false)
                               rejecting_world) =
                 Ret (None, Some "unauthorized")) by (vm_compute; reflexivity).
  split; [exact Hreg|].
  exact (proj1 (Start_registration_failure _ _ _ _ Hreg)).
Defined.

(** A service that answers with nothing: the run panics. *)
Lemma Start_nil_agent_witness :
  outcome_of (AgentPool.registration (pool false false) empty_reply_world) =
    Ret (None, None) /\
  outcome_of (AgentPool.Start (pool false false) empty_reply_world) = Panicked.
Proof.
  assert (Hreg : outcome_of (AgentPool.registration (pool false false)
                               empty_reply_world) = Ret (None, None))
    by (vm_compute; reflexivity).
  split; [exact Hreg|].
  exact (proj1 (Start_nil_agent _ _ Hreg)).
Defined.

(** A service that accepts at once: the worker is built and connected. *)
Lemma Start_creates_worker_witness :
  outcome_of (AgentPool.registration (pool false false) good_world) =
    Ret (Some registered_agent, None) /\
  exists t0 rest,
    trace_of (AgentPool.Start (pool false false) good_world) =
      t0 ++ AgentPool.registered_log registered_agent ::
      AgentPool.connecting_log :: Connected None :: rest.
Proof.
  assert (Hreg : outcome_of (AgentPool.registration (pool false false)
                               good_world) =
                 Ret (Some registered_agent, None))
    by (vm_compute; reflexivity).
  split; [exact Hreg|].
  destruct (Start_creates_worker _ _ _ Hreg) as (t0 & rest & Htr & _).
  exists t0, rest. exact Htr.
Defined.

(** A service that rejects the token: one call, then the fatal exit. *)
Lemma Start_rejected_witness :
  AgentPool.CreateAgentTemplate (pool false false) rejecting_world =
    (Ret template_agent, rejecting_world, []) /\
  count is_Register
    (trace_of (AgentPool.Start (pool false false) rejecting_world)) = 1%nat.
Proof.
  assert (Ht : AgentPool.CreateAgentTemplate (pool false false)
                 rejecting_world =
               (Ret template_agent, rejecting_world, [])) by reflexivity.
  assert (Hreg : Agents_Register
                   (APIClient_Create (AgentPool.Endpoint (pool false false))
                      (AgentPool.Token (pool false false)))
                   template_agent rejecting_world =
                 ((None, Some {| api.StatusCode := 401 |},
                   Some "unauthorized"),
                  (next_reply rejecting_world).2)) by reflexivity.
  split; [exact Ht|].
  exact (proj1 (proj2 (Start_rejected _ _ _ _ _ _ _ _ _ Ht Hreg eq_refl))).
Defined.

(** A service that cannot be reached: the run panics. *)
Lemma Start_transport_failure_witness :
  AgentPool.CreateAgentTemplate (pool false false) unreachable_world =
    (Ret template_agent, unreachable_world, []) /\
  outcome_of (AgentPool.Start (pool false false) unreachable_world) = Panicked.
Proof.
  assert (Ht : AgentPool.CreateAgentTemplate (pool false false)
                 unreachable_world =
               (Ret template_agent, unreachable_world, [])) by reflexivity.
  assert (Hreg : Agents_Register
                   (APIClient_Create (AgentPool.Endpoint (pool false false))
                      (AgentPool.Token (pool false false)))
                   template_agent unreachable_world =
                 ((None, None, Some "connection refused"),
                  (next_reply unreachable_world).2)) by reflexivity.
  split; [exact Ht|].
  exact (proj1 (Start_transport_failure _ _ _ _ _ _ _ _ Ht Hreg)).
Defined.

(** The closure on a service that is unavailable: one call, and the world
    the call leaves. *)
Lemma register_outcome_witness :
  AgentPool.APIClient (ready_pool false) = Some client /\
  count is_Register
    (trace_of (AgentPool.register (ready_pool false) registered_agent
                 {| retry.Attempt := 1;
                    retry.StatsConfig := AgentPool.register_config;
                    retry.breakNext := false |}
                 nothing_captured unavailable_world)) = 1%nat.
Proof.
  split; [reflexivity|].
  exact (proj1 (register_outcome (ready_pool false) registered_agent
                  {| retry.Attempt := 1;
                     retry.StatsConfig := AgentPool.register_config;
                     retry.breakNext := false |}
                  nothing_captured unavailable_world client eq_refl)).
Defined.

(** The pool before [Start] has created its API client. *)
Lemma register_nil_client_witness :
  AgentPool.APIClient (pool false false) = None /\
  AgentPool.RegisterAgent (pool false false) registered_agent good_world =
    (Panicked, good_world, [Retry retry.Invoke]).
Proof.
  split; [reflexivity|].
  exact (proj1 (proj2 (register_nil_client (pool false false)
                         registered_agent
                         {| retry.Attempt := 1;
                            retry.StatsConfig := AgentPool.register_config;
                            retry.breakNext := false |}
                         nothing_captured good_world eq_refl))).
Defined.

(** A service that accepts at once. *)
Lemma RegisterAgent_accepted_witness :
  AgentPool.APIClient (ready_pool false) = Some client /\
  AgentPool.RegisterAgent (ready_pool false) template_agent good_world =
    (Ret (Some registered_agent, None), (next_reply good_world).2,
     [Retry retry.Invoke; Registering template_agent]).
Proof.
  split; [reflexivity|].
  assert (Hreg : Agents_Register client template_agent good_world =
                 ((Some registered_agent, Some {| api.StatusCode := 200 |},
                   None), (next_reply good_world).2)) by reflexivity.
  exact (RegisterAgent_accepted (ready_pool false) template_agent client
           good_world _ _ _ eq_refl Hreg).
Defined.

(** A service that stays unavailable. *)
Lemma RegisterAgent_bounded_witness :
  AgentPool.APIClient (ready_pool false) = Some client /\
  exists n,
    (1 <= n <= 30)%nat /\
    count is_Register
      (trace_of (AgentPool.RegisterAgent (ready_pool false) template_agent
                   unavailable_world)) = n /\
    count is_Sleep
      (trace_of (AgentPool.RegisterAgent (ready_pool false) template_agent
                   unavailable_world)) = (n - 1)%nat.
Proof.
  split; [reflexivity|].
  exact (RegisterAgent_bounded (ready_pool false) template_agent
           unavailable_world client eq_refl).
Defined.
